(** * hallucination-auditor: the scan-and-report script [audit.py]

    The script reads one text file, runs two regular-expression searches
    over its contents ([find_suspect_numbers], [find_fake_paths]) and
    prints either a one-line "clean" message or a table of the matches
    followed by a summary line.

    This development embeds the script in Rocq:

    - a text is a [list ascii]; a character stands for the code point of the
      same number, so the texts covered are those whose code points are
      below 256, and the character classes [\d], [\s], [\w] follow the
      classification the [re] module uses on that range;
    - the two patterns are written as terms of a small regular-expression
      syntax, one constructor per construct the patterns use, and run by a
      backtracking matcher that tries alternatives left to right and
      repetitions longest first, as [re] does;
    - [re.finditer] is a left-to-right scan for non-overlapping matches;
    - the console is the list of things printed, the table is the list of
      rows added to it, and a run ends by reaching the end of the script, by
      [sys.exit] or by an exception that nothing catches: one raised while
      loading the file, or by the console library while printing.

    The file has five parts: the script, the vocabulary of the properties,
    the lemmas about the matcher, the scan and the report, one theorem for
    each claim C1..C10 of the specification, and further properties of the
    script, X1..X14. *)

From Stdlib Require Import Ascii String List Bool Arith Lia ZArith.
From Stdlib Require Import Numbers.DecimalString.
From Stdlib Require Import Numbers.DecimalNat.
From Stdlib Require Import Sorting.Sorted.
Import ListNotations.

Local Open Scope list_scope.

(** ** Texts *)

Definition text := list ascii.

Definition str (s : string) : text := list_ascii_of_string s.

(** ** Character classes of the [re] module, on code points 0..255 *)

Module Chars.

Definition code (c : ascii) : nat := nat_of_ascii c.

Definition between (lo hi : nat) (c : ascii) : bool :=
  (lo <=? code c) && (code c <=? hi).

(** [\d]: the decimal digits. *)
Definition is_decimal (c : ascii) : bool := between 48 57 c.

(** [\s], and the characters [str.strip] removes: tab, line feed, vertical
    tab, form feed, carriage return, the four separators 28..31, space,
    next-line (133) and no-break space (160). *)
Definition is_space (c : ascii) : bool :=
  between 9 13 c || between 28 32 c || (code c =? 133) || (code c =? 160).

(** Alphanumeric characters ([str.isalnum]), which [\w] and [\b] rely on. *)
Definition is_alnum (c : ascii) : bool :=
  between 48 57 c || between 65 90 c || between 97 122 c
  || (code c =? 170) || (code c =? 178) || (code c =? 179) || (code c =? 181)
  || (code c =? 185) || (code c =? 186) || between 188 190 c
  || between 192 214 c || between 216 246 c || between 248 255 c.

(** [\w]. *)
Definition is_word (c : ascii) : bool := is_alnum c || Ascii.eqb c "_"%char.

End Chars.

Local Open Scope char_scope.

(** ** Regular expressions: the constructs the two patterns use *)

Inductive cls_item : Type :=
| CChar (c : ascii)            (* a character inside [...] *)
| CRange (lo hi : ascii)       (* lo-hi inside [...] *)
| CDigit.                      (* \d inside [...] *)

Inductive atom : Type :=
| Lit (c : ascii)              (* a literal character *)
| Digit                        (* \d *)
| Space                        (* \s *)
| AnyOf (items : list cls_item)    (* [...] *)
| NoneOf (items : list cls_item).  (* [^...] *)

Inductive regex : Type :=
| Eps
| One (x : atom)
| Rep (x : atom) (lo : nat) (hi : option nat)  (* x{lo,hi}, greedy; x*, x+, x? *)
| Seq (r1 r2 : regex)
| Alt (r1 r2 : regex)          (* r1|r2, r1 tried first *)
| NotBehind (x : atom)         (* (?<!x) *)
| NotAhead (r : regex)         (* (?!r) *)
| WordB.                       (* \b *)

Declare Scope regex_scope.
Delimit Scope regex_scope with re.
Bind Scope regex_scope with regex.
Infix ";;" := Seq (at level 41, right associativity) : regex_scope.
Infix "<|>" := Alt (at level 51, right associativity) : regex_scope.

Definition star (x : atom) : regex := Rep x 0 None.
Definition plus (x : atom) : regex := Rep x 1 None.
Definition opt (x : atom) : regex := Rep x 0 (Some 1).

(** A run of literal characters. *)
Fixpoint lits_of (l : text) : regex :=
  match l with
  | [] => Eps
  | [c] => One (Lit c)
  | c :: l' => Seq (One (Lit c)) (lits_of l')
  end.

Definition lits (s : string) : regex := lits_of (str s).

Definition item_ok (i : cls_item) (c : ascii) : bool :=
  match i with
  | CChar d => Ascii.eqb c d
  | CRange lo hi => Chars.between (Chars.code lo) (Chars.code hi) c
  | CDigit => Chars.is_decimal c
  end.

Definition atom_ok (x : atom) (c : ascii) : bool :=
  match x with
  | Lit d => Ascii.eqb c d
  | Digit => Chars.is_decimal c
  | Space => Chars.is_space c
  | AnyOf items => existsb (fun i => item_ok i c) items
  | NoneOf items => negb (existsb (fun i => item_ok i c) items)
  end.

(** ** The backtracking matcher

    A position in the text is the pair of the characters before it, nearest
    first, and the characters after it.  The matcher is written in
    continuation-passing style: [k] is what remains to be matched, and the
    first way of matching [r] after which [k] succeeds is the result. *)

Definition pos : Type := text * text.
Definition cont : Type := text -> text -> option pos.

Definition accept : cont := fun b a => Some (b, a).

Definition more (hi : option nat) : bool :=
  match hi with Some 0 => false | _ => true end.

Definition dec (hi : option nat) : option nat := option_map pred hi.

(** Greedy repetition of a one-character item: take one more character when
    allowed, and give it back when the rest fails. *)
Fixpoint rep (p : ascii -> bool) (lo : nat) (hi : option nat)
    (b a : text) (k : cont) : option pos :=
  let stop := match lo with 0 => k b a | S _ => None end in
  match a with
  | c :: a' =>
      if p c && more hi then
        match rep p (pred lo) (dec hi) (c :: b) a' k with
        | Some r => Some r
        | None => stop
        end
      else stop
  | [] => stop
  end.

Definition word_at (l : text) : bool :=
  match l with c :: _ => Chars.is_word c | [] => false end.

Fixpoint exec (r : regex) (b a : text) (k : cont) : option pos :=
  match r with
  | Eps => k b a
  | One x =>
      match a with
      | c :: a' => if atom_ok x c then k (c :: b) a' else None
      | [] => None
      end
  | Rep x lo hi => rep (atom_ok x) lo hi b a k
  | Seq r1 r2 => exec r1 b a (fun b' a' => exec r2 b' a' k)
  | Alt r1 r2 =>
      match exec r1 b a k with
      | Some r => Some r
      | None => exec r2 b a k
      end
  | NotBehind x =>
      match b with
      | c :: _ => if atom_ok x c then None else k b a
      | [] => k b a
      end
  | NotAhead r' =>
      match exec r' b a accept with
      | Some _ => None
      | None => k b a
      end
  | WordB => if xorb (word_at b) (word_at a) then k b a else None
  end.

(** The match of [r] that starts at the position [(b, a)], if any: the
    position where it ends. *)
Definition match_here (r : regex) (b a : text) : option pos := exec r b a accept.

(** ** Match objects and [re.finditer] *)

Record MatchObj : Type := mkMatch {
  m_start : nat;      (* m.start() *)
  m_end : nat;        (* m.end() *)
  m_group : text      (* m.group() *)
}.

(** [scan r skip b a]: the matches of [r] from the position [(b, a)] on,
    where the next [skip] characters belong to the match found last and
    start no match.  After an empty match the scan moves on by one
    character. *)
Fixpoint scan (r : regex) (skip : nat) (b a : text) : list MatchObj :=
  match skip with
  | S n =>
      match a with
      | c :: a' => scan r n (c :: b) a'
      | [] => []
      end
  | 0 =>
      match match_here r b a with
      | Some (b', _) =>
          let s := length b in
          let e := length b' in
          mkMatch s e (firstn (e - s) a)
            :: match a with
               | c :: a' => scan r (e - s - 1) (c :: b) a'
               | [] => []
               end
      | None =>
          match a with
          | c :: a' => scan r 0 (c :: b) a'
          | [] => []
          end
      end
  end.

Definition finditer (r : regex) (t : text) : list MatchObj := scan r 0 [] t.

(** ** The two searches of [audit.py] *)

Local Open Scope regex_scope.

(** [(?<!\[)(?:\d{1,4}[,\d]*\s?(?:bytes?|B|KB|MB|GB|ms|s|line\s?\d+|row|rows|duplicate))(?![^\[]*\])] *)

Definition units : regex :=
      (lits "byte" ;; opt (Lit "s"))
  <|> lits "B"
  <|> lits "KB"
  <|> lits "MB"
  <|> lits "GB"
  <|> lits "ms"
  <|> lits "s"
  <|> (lits "line" ;; opt Space ;; plus Digit)
  <|> lits "row"
  <|> lits "rows"
  <|> lits "duplicate".

Definition closing_ahead : regex := star (NoneOf [CChar "["]) ;; One (Lit "]").

Definition suspect_numbers_pattern : regex :=
  NotBehind (Lit "[")
  ;; (Rep Digit 1 (Some 4) ;; star (AnyOf [CChar ","; CDigit]) ;; opt Space ;; units)
  ;; NotAhead closing_ahead.

Definition find_suspect_numbers (t : text) : list MatchObj :=
  finditer suspect_numbers_pattern t.

(** [[a-zA-Z0-9_/]+\.rs:\d+|[a-z_]+\(\)|\bunwrap\(\)|\bprost::] *)

Definition fake_paths_pattern : regex :=
      (plus (AnyOf [CRange "a" "z"; CRange "A" "Z"; CRange "0" "9"; CChar "_"; CChar "/"])
       ;; lits ".rs:" ;; plus Digit)
  <|> (plus (AnyOf [CRange "a" "z"; CChar "_"]) ;; lits "()")
  <|> (WordB ;; lits "unwrap()")
  <|> (WordB ;; lits "prost::").

Definition find_fake_paths (t : text) : list MatchObj :=
  finditer fake_paths_pattern t.

Local Close Scope regex_scope.

(** ** String operations the report uses *)

(** [t[i:j]] for indices [0 <= i] and [0 <= j]; empty when [j <= i]. *)
Definition slice (i j : Z) (t : text) : text :=
  firstn (Z.to_nat j - Z.to_nat i) (skipn (Z.to_nat i) t).

(** [t.replace('\n', ' ')] *)
Definition replace_newlines (t : text) : text :=
  map (fun c => if Ascii.eqb c "010" then " " else c) t.

Fixpoint lstrip (t : text) : text :=
  match t with
  | c :: t' => if Chars.is_space c then lstrip t' else t
  | [] => []
  end.

Definition rstrip (t : text) : text := rev (lstrip (rev t)).

(** [t.strip()] *)
Definition strip (t : text) : text := rstrip (lstrip t).

Fixpoint starts_with (p t : text) : bool :=
  match p, t with
  | [], _ => true
  | c :: p', d :: t' => Ascii.eqb c d && starts_with p' t'
  | _ :: _, [] => false
  end.

(** [p in t] *)
Fixpoint contains (p t : text) : bool :=
  starts_with p t
  || match t with
     | _ :: t' => contains p t'
     | [] => false
     end.

(** ** The table and the console *)

Record Row : Type := mkRow {
  r_type : text;
  r_match : text;
  r_context : text
}.

Record Table : Type := mkTable {
  t_title : string;
  t_columns : list string;
  t_rows : list Row
}.

Definition add_column (name : string) (t : Table) : Table :=
  mkTable (t_title t) (t_columns t ++ [name]) (t_rows t).

Definition add_row (r : Row) (t : Table) : Table :=
  mkTable (t_title t) (t_columns t) (t_rows t ++ [r]).

Inductive renderable : Type :=
| Line (s : string)
| Grid (t : Table).

(** One call of [console.print]: what is printed and the style given. *)
Record printed : Type := mkPrinted {
  p_what : renderable;
  p_style : option string
}.

(** ** The file system, exceptions and the ways a run ends *)

Inductive exn : Type :=
| FileNotFoundError
| PermissionError
| IsADirectoryError
| UnicodeDecodeError
| MarkupError.             (* raised by the console library *)

(** What [Path(path).read_text()] gives for each path. *)
Definition filesystem : Type := string -> exn + text.

(** The console library reads every string it prints, and every title,
    header and cell of a table, as console markup.  A string without "["
    holds no markup and is printed as it is.  For a string with a "[" the
    library decides: [true] when reading it raises [MarkupError], as it does
    on a closing tag such as "[/b]" that closes nothing. *)
Definition markup : Type := text -> bool.

Inductive ending : Type :=
| Returned                 (* the script ran to its end *)
| Uncaught (e : exn)       (* an exception reached the top level *)
| SysExit (code : Z).      (* sys.exit(code) *)

Record run : Type := mkRun {
  console : list printed;
  how : ending
}.

(** The exit status of the interpreter: 0 at the end of the script, the
    argument of [sys.exit], 1 after an uncaught exception. *)
Definition exit_code (r : run) : Z :=
  match how r with
  | Returned => 0
  | Uncaught _ => 1
  | SysExit code => code
  end.

(** ** Printing *)

(** Reading the string [c] as markup raises. *)
Definition cell_raises (rich : markup) (c : text) : bool :=
  contains (str "[") c && rich c.

Definition row_raises (rich : markup) (r : Row) : bool :=
  cell_raises rich (r_type r) || cell_raises rich (r_match r)
  || cell_raises rich (r_context r).

Definition table_raises (rich : markup) (tb : Table) : bool :=
  cell_raises rich (str (t_title tb))
  || existsb (fun h => cell_raises rich (str h)) (t_columns tb)
  || existsb (row_raises rich) (t_rows tb).

(** [console.print] of [p] raises. *)
Definition print_raises (rich : markup) (p : printed) : bool :=
  match p_what p with
  | Line s => cell_raises rich (str s)
  | Grid tb => table_raises rich tb
  end.

(** The calls of [console.print] made one after the other, [shown] being what
    is on the console so far.  A call that raises prints nothing, and ends
    the run: the calls after it are not made. *)
Fixpoint run_prints (rich : markup) (calls shown : list printed) : run :=
  match calls with
  | [] => mkRun shown Returned
  | p :: calls' =>
      if print_raises rich p then mkRun shown (Uncaught MarkupError)
      else run_prints rich calls' (shown ++ [p])
  end.

(** ** The script *)

Definition load_file (fs : filesystem) (path : string) : exn + text := fs path.

Definition clean_message : string :=
  "✅ Clean – no obvious hallucinations detected".

Definition table_title : string := "Hallucination Alerts 🔥".

Definition usage_message : string := "Usage: python audit.py <markdown-file>".

Definition decimal (n : nat) : string := NilEmpty.string_of_uint (Nat.to_uint n).

Definition summary (n : nat) : string :=
  String "010"
    ("Found " ++ decimal n ++ " potential hallucinations. Fix or flag before publishing.")%string.

Definition type_of (m : MatchObj) : text :=
  if contains (str "line") (m_group m) || contains (str "row") (m_group m)
  then str "Line/Reference"
  else str "Number/Unit".

Definition context_of (t : text) (m : MatchObj) : text :=
  let start := Z.max 0 (Z.of_nat (m_start m) - 30) in
  let end_ := Z.min (Z.of_nat (length t)) (Z.of_nat (m_end m) + 30) in
  replace_newlines (slice start end_ t).

Definition row_of (t : text) (m : MatchObj) : Row :=
  let context := context_of t m in
  mkRow (type_of m) (m_group m) (firstn 120 (strip context) ++ str "...").

(** Both searches, Rule 1's matches first. *)
Definition issues_of (t : text) : list MatchObj :=
  find_suspect_numbers t ++ find_fake_paths t.

(** The calls of [console.print] in the body of [main], in the order the
    code makes them once the text is loaded: the clean message and nothing
    else, or the table and then the summary line. *)
Definition report (t : text) : list printed :=
  let issues := issues_of t in
  match issues with
  | [] => [mkPrinted (Line clean_message) (Some "bold green"%string)]
  | _ :: _ =>
      let table := mkTable table_title [] [] in
      let table := add_column "Context" (add_column "Match" (add_column "Type" table)) in
      let table := fold_left (fun tb m => add_row (row_of t m) tb) issues table in
      [ mkPrinted (Grid table) None;
        mkPrinted (Line (summary (length issues))) (Some "bold red"%string) ]
  end.

Definition main (rich : markup) (fs : filesystem) (file_path : string) : run :=
  match load_file fs file_path with
  | inl e => mkRun [] (Uncaught e)
  | inr t => run_prints rich (report t) []
  end.

(** The [__main__] block; [argv] is [sys.argv], the program name first. *)
Definition script (rich : markup) (fs : filesystem) (argv : list string) : run :=
  if negb (length argv =? 2)%nat then
    mkRun [mkPrinted (Line usage_message) (Some "bold"%string)] (SysExit 1)
  else
    main rich fs (nth 1 argv EmptyString).

(** * The vocabulary of the properties *)

(** ** Kinds of characters *)

Definition is_bracket (c : ascii) : bool := Ascii.eqb c "[" || Ascii.eqb c "]".

(** What [[,\d]] accepts. *)
Definition digit_or_comma (c : ascii) : bool :=
  atom_ok (AnyOf [CChar ","; CDigit]) c.

(** What the number and the optional space of Rule 1 are made of. *)
Definition number_or_space (c : ascii) : bool :=
  digit_or_comma c || Chars.is_space c.

(** The characters Rule 2 cannot do without: every match of it holds a dot,
    an opening parenthesis or a colon. *)
Definition is_mark (c : ascii) : bool :=
  Ascii.eqb c "." || Ascii.eqb c "(" || Ascii.eqb c ":".

(** Neither a bracket nor a mark. *)
Definition is_plain (c : ascii) : bool := negb (is_bracket c) && negb (is_mark c).

(** The character [c] does not occur in [t]. *)
Definition lacks (c : ascii) (t : text) : bool :=
  forallb (fun d => negb (Ascii.eqb d c)) t.

Definition no_digit (t : text) : bool :=
  forallb (fun c => negb (Chars.is_decimal c)) t.

(** A case analysis on the 256 characters. *)
Ltac by_cases_on_char c :=
  destruct c as [[] [] [] [] [] [] [] []]; vm_compute; try reflexivity; try discriminate; auto.

(** ** What a regular expression can match *)

(** [denote r b x a]: [r] can match the characters [x] at the position with
    [b] before it and [x ++ a] after it. *)
Fixpoint denote (r : regex) (b x a : text) : Prop :=
  match r with
  | Eps => x = []
  | One y => exists c, x = [c] /\ atom_ok y c = true
  | Rep y lo hi =>
      forallb (atom_ok y) x = true /\ lo <= length x
      /\ (forall h, hi = Some h -> length x <= h)
  | Seq r1 r2 =>
      exists x1 x2, x = x1 ++ x2
        /\ denote r1 b x1 (x2 ++ a) /\ denote r2 (rev x1 ++ b) x2 a
  | Alt r1 r2 => denote r1 b x a \/ denote r2 b x a
  | NotBehind y =>
      x = [] /\ match b with c :: _ => atom_ok y c = false | [] => True end
  | NotAhead r' => x = [] /\ exec r' b a accept = None
  | WordB => x = [] /\ xorb (word_at b) (word_at a) = true
  end.

(** The text [a] is empty or starts with a character that [p] refuses: a
    repetition of [p] stops here. *)
Definition stops (p : ascii -> bool) (a : text) : Prop :=
  match a with
  | [] => True
  | c :: _ => p c = false
  end.

(** ** Brackets around a match *)

(** A closing bracket comes before any opening bracket. *)
Definition closed_before_open (t : text) : Prop :=
  exists u v, t = u ++ "]" :: v /\ ~ In "[" u.

Fixpoint closes (t : text) : bool :=
  match t with
  | [] => false
  | c :: t' =>
      if Ascii.eqb c "]" then true
      else if Ascii.eqb c "[" then false
      else closes t'
  end.

(** The text ends with an opening bracket. *)
Definition ends_with_open (pre : text) : Prop := exists p, pre = p ++ ["["].

(** The same, on the characters before a position, nearest first. *)
Definition not_after_open (b : text) : Prop :=
  match b with
  | c :: _ => Ascii.eqb c "[" = false
  | [] => True
  end.

(** ** The parts of a number-and-unit phrase *)

(** A digit followed by digits and commas. *)
Definition number_run (d : text) : bool :=
  match d with
  | c :: ds => Chars.is_decimal c && forallb digit_or_comma ds
  | [] => false
  end.

(** Nothing, or one white-space character. *)
Definition opt_space (s : text) : bool :=
  match s with
  | [] => true
  | [c] => Chars.is_space c
  | _ => false
  end.

(** The unit words that Rule 1 reads in one way only, whatever follows. *)
Definition plain_units : list text :=
  map str ["bytes"; "B"; "KB"; "MB"; "GB"; "ms"; "s"; "row"; "duplicate"]%string.

(** [unit_here u post]: [u] is a unit phrase of Rule 1 read in full when
    [post] follows it: "byte" is not followed by an "s", and the digits after
    "line" are all of them. *)
Inductive unit_here : text -> text -> Prop :=
| unit_plain u post :
    In u plain_units -> unit_here u post
| unit_byte post :
    stops (atom_ok (Lit "s")) post -> unit_here (str "byte") post
| unit_line ws ds post :
    opt_space ws = true ->
    ds <> [] -> forallb Chars.is_decimal ds = true ->
    stops Chars.is_decimal post ->
    unit_here (str "line" ++ ws ++ ds) post.

(** The unit words a match of Rule 1 can end with, "rows" left out. *)
Definition unit_texts : list text :=
  map str ["bytes"; "byte"; "B"; "KB"; "MB"; "GB"; "ms"; "s"; "row"; "duplicate"]%string.

(** "line", white space and digits. *)
Definition line_unit (u : text) : Prop :=
  exists ws ds, u = str "line" ++ ws ++ ds
    /\ forallb Chars.is_space ws = true /\ forallb Chars.is_decimal ds = true.

(** The unit words of Rule 1, "rows" among them. *)
Definition unit_word (u : text) : Prop :=
  In u (str "rows" :: unit_texts) \/ line_unit u.

(** ** Rule 1 without its "rows" alternative *)

Local Open Scope regex_scope.

Definition units_without_rows : regex :=
      (lits "byte" ;; opt (Lit "s"))
  <|> lits "B"
  <|> lits "KB"
  <|> lits "MB"
  <|> lits "GB"
  <|> lits "ms"
  <|> lits "s"
  <|> (lits "line" ;; opt Space ;; plus Digit)
  <|> lits "row"
  <|> lits "duplicate".

Definition suspect_numbers_without_rows : regex :=
  NotBehind (Lit "[")
  ;; (Rep Digit 1 (Some 4) ;; star (AnyOf [CChar ","; CDigit]) ;; opt Space
      ;; units_without_rows)
  ;; NotAhead closing_ahead.

Local Close Scope regex_scope.

(** What follows the unit in Rule 1: the look-ahead, then the end of the
    match. *)
Definition after_unit : cont :=
  fun b a => exec (NotAhead closing_ahead) b a accept.

(** ** Substrings and categories *)

(** [p] occurs in [t]. *)
Definition has_sub (p t : text) : Prop := exists u v, t = u ++ p ++ v.

(** "line" or "row" occurs in the matched text. *)
Definition names_line_or_row (g : text) : Prop :=
  has_sub (str "line") g \/ has_sub (str "row") g.

(** ** What a report shows *)

(** The table of a report with findings. *)
Definition findings_table (t : text) : Table :=
  mkTable table_title ["Type"; "Match"; "Context"]%string
          (map (row_of t) (issues_of t)).

(** The rows handed to the table ([table.add_row]) in a report: none when it
    is the clean message. *)
Definition rows_shown (t : text) : list Row :=
  flat_map (fun p => match p_what p with
                     | Grid tb => t_rows tb
                     | Line _ => []
                     end) (report t).

(** The characters of [t] from 30 before position [s] to 30 after position
    [e], inside the text. *)
Definition window (t : text) (s e : nat) : text :=
  firstn (Nat.min (length t) (e + 30) - (s - 30)) (skipn (s - 30) t).

(** The usage message as the script prints it. *)
Definition usage_line : printed :=
  mkPrinted (Line usage_message) (Some "bold"%string).

(** ** Order, shapes and letters *)

(** [m1] ends where [m2] starts or before, and starts before it. *)
Definition apart (m1 m2 : MatchObj) : Prop :=
  m_end m1 <= m_start m2 /\ m_start m1 < m_start m2.

(** Matches in text order, none overlapping another. *)
Definition in_order (l : list MatchObj) : Prop := StronglySorted apart l.

(** "line", at most one white-space character and at least one digit. *)
Definition line_phrase (u : text) : Prop :=
  exists ws ds, u = str "line" ++ ws ++ ds
    /\ opt_space ws = true /\ ds <> [] /\ forallb Chars.is_decimal ds = true.

(** The unit words of sizes, times and duplicates. *)
Definition quantity_units : list text :=
  map str ["bytes"; "byte"; "B"; "KB"; "MB"; "GB"; "ms"; "s"; "duplicate"]%string.

(** The letters a unit word of Rule 1 can start with. *)
Definition unit_letter (c : ascii) : bool :=
  existsb (Ascii.eqb c) ["b"; "B"; "K"; "M"; "G"; "m"; "s"; "l"; "r"; "d"].

(** What [[a-zA-Z0-9_/]] and [[a-z_]] accept. *)
Definition path_char (c : ascii) : bool :=
  atom_ok (AnyOf [CRange "a" "z"; CRange "A" "Z"; CRange "0" "9"; CChar "_"; CChar "/"]) c.

Definition ident_char (c : ascii) : bool :=
  atom_ok (AnyOf [CRange "a" "z"; CChar "_"]) c.

(** Rule 2 without its "unwrap()" alternative. *)
Definition fake_paths_without_unwrap : regex :=
  Alt (Seq (plus (AnyOf [CRange "a" "z"; CRange "A" "Z"; CRange "0" "9"; CChar "_"; CChar "/"]))
           (Seq (lits ".rs:") (plus Digit)))
      (Alt (Seq (plus (AnyOf [CRange "a" "z"; CChar "_"])) (lits "()"))
           (Seq WordB (lits "prost::"))).

(** The clean message as the script prints it. *)
Definition clean_line : printed :=
  mkPrinted (Line clean_message) (Some "bold green"%string).

(** ** Reading the summary line *)

(** [s] without its first [n] characters. *)
Fixpoint drop (n : nat) (s : string) : string :=
  match n, s with
  | S n', String _ s' => drop n' s'
  | _, _ => s
  end.

(** The digits [s] starts with. *)
Fixpoint leading_digits (s : string) : string :=
  match s with
  | String c s' =>
      if Chars.is_decimal c then String c (leading_digits s') else EmptyString
  | EmptyString => EmptyString
  end.

(** The number a reader finds in the summary line: the digits after the
    newline and "Found ", read as a decimal number. *)
Definition count_read (line : string) : option nat :=
  option_map Nat.of_uint (NilEmpty.uint_of_string (leading_digits (drop 7 line))).

(** ** What can follow a number in a Rule-1 match *)

(** After a number and the optional space [s], a match of Rule 1 goes on with
    [c] only if [c] is a digit or a comma, the first letter of a unit word,
    or, when [s] is empty, a white-space character. *)
Definition could_continue (s : text) (c : ascii) : bool :=
  digit_or_comma c || unit_letter c
  || match s with
     | [] => Chars.is_space c
     | _ :: _ => false
     end.

(** ** Consoles for the examples *)

(** A console library that rejects the strings in which [tag] occurs, and no
    others. *)
Definition rejects (tag : text) : markup := fun c => contains tag c.

(** * Properties *)

(** ** Characters *)

Lemma digit_is_digit_or_comma c : Chars.is_decimal c = true -> digit_or_comma c = true.
Proof. by_cases_on_char c. Qed.

Lemma space_not_digit_or_comma c : Chars.is_space c = true -> digit_or_comma c = false.
Proof. by_cases_on_char c. Qed.

Lemma digit_not_space c : Chars.is_decimal c = true -> Chars.is_space c = false.
Proof. by_cases_on_char c. Qed.

(** ** The matcher calls its continuation further on in the same text *)

Lemma rep_sound p lo hi b a k r :
  rep p lo hi b a k = Some r ->
  exists x a', a = x ++ a' /\ forallb p x = true /\ lo <= length x
    /\ (forall h, hi = Some h -> length x <= h)
    /\ k (rev x ++ b) a' = Some r.
Proof.
  revert lo hi b.
  induction a as [|c a IH]; intros lo hi b H; simpl in H.
  - destruct lo; [|discriminate].
    exists [], []. repeat split; auto. intros; simpl; lia.
  - assert (Hstop : match lo with 0 => k b (c :: a) | S _ => None end = Some r ->
              exists x a', c :: a = x ++ a' /\ forallb p x = true /\ lo <= length x
                /\ (forall h, hi = Some h -> length x <= h)
                /\ k (rev x ++ b) a' = Some r).
    { intros Hs. destruct lo; [|discriminate].
      exists [], (c :: a). repeat split; auto. intros; simpl; lia. }
    destruct (p c) eqn:Hp; simpl in H; [|auto].
    destruct (more hi) eqn:Hm; [|auto].
    destruct (rep p (pred lo) (dec hi) (c :: b) a k) as [r'|] eqn:Hin; [|auto].
    inversion H; subst r'. clear H Hstop.
    destruct (IH _ _ _ Hin) as (x & a' & -> & Hall & Hlo & Hhi & Hk).
    exists (c :: x), a'. simpl. rewrite Hp, Hall. repeat split; auto.
    + lia.
    + intros h ->. destruct h; [discriminate|]. specialize (Hhi h eq_refl). lia.
    + rewrite <- app_assoc. exact Hk.
Qed.

Lemma exec_sound r : forall b a k p,
  exec r b a k = Some p ->
  exists x a', a = x ++ a' /\ denote r b x a' /\ k (rev x ++ b) a' = Some p.
Proof.
  induction r as [|y|y lo hi|r1 IH1 r2 IH2|r1 IH1 r2 IH2|y|r' _|];
    intros b a k p H; simpl in H.
  - exists [], a. simpl. auto.
  - destruct a as [|c a]; [discriminate|].
    destruct (atom_ok y c) eqn:Hc; [|discriminate].
    exists [c], a. simpl. repeat split; eauto.
  - destruct (rep_sound _ _ _ _ _ _ _ H) as (x & a' & -> & Hall & Hlo & Hhi & Hk).
    exists x, a'. simpl. auto.
  - destruct (IH1 _ _ _ _ H) as (x1 & a1 & -> & D1 & H2).
    destruct (IH2 _ _ _ _ H2) as (x2 & a2 & -> & D2 & Hk).
    exists (x1 ++ x2), a2. rewrite <- app_assoc. split; [reflexivity|]. split.
    + simpl. exists x1, x2. auto.
    + rewrite rev_app_distr, <- app_assoc. exact Hk.
  - destruct (exec r1 b a k) as [q|] eqn:E1.
    + inversion H; subst q. destruct (IH1 _ _ _ _ E1) as (x & a' & -> & D1 & Hk).
      exists x, a'. simpl. auto.
    + destruct (IH2 _ _ _ _ H) as (x & a' & -> & D2 & Hk).
      exists x, a'. simpl. auto.
  - exists [], a. simpl. destruct b as [|c b]; [auto|].
    destruct (atom_ok y c); [discriminate|auto].
  - exists [], a. simpl. destruct (exec r' b a accept); [discriminate|auto].
  - exists [], a. simpl. destruct (xorb (word_at b) (word_at a)); [auto|discriminate].
Qed.

(** The match found at a position ends further on in the same text. *)
Lemma match_here_sound r b a b' a' :
  match_here r b a = Some (b', a') ->
  exists x, a = x ++ a' /\ b' = rev x ++ b /\ denote r b x a'.
Proof.
  intros H. destruct (exec_sound _ _ _ _ _ H) as (x & a1 & -> & D & Hk).
  inversion Hk; subst. eauto.
Qed.

(** ** Every match the scan reports is a match of the pattern where it says *)

Section Scanning.

Variable r : regex.

Lemma scan_sound : forall a skip b m,
  In m (scan r skip b a) ->
  exists x mid post,
    a = x ++ mid ++ post /\ skip <= length x
    /\ m = mkMatch (length b + length x) (length b + length x + length mid) mid
    /\ match_here r (rev x ++ b) (mid ++ post) = Some (rev mid ++ rev x ++ b, post).
Proof.
  assert (Hcons : forall c a b m n,
    (exists x mid post,
      a = x ++ mid ++ post /\ n <= length x
      /\ m = mkMatch (length (c :: b) + length x)
                     (length (c :: b) + length x + length mid) mid
      /\ match_here r (rev x ++ c :: b) (mid ++ post)
         = Some (rev mid ++ rev x ++ c :: b, post)) ->
    exists x mid post,
      c :: a = x ++ mid ++ post /\ 0 <= length x
      /\ m = mkMatch (length b + length x) (length b + length x + length mid) mid
      /\ match_here r (rev x ++ b) (mid ++ post) = Some (rev mid ++ rev x ++ b, post)).
  { intros c a b m n (x & mid & post & -> & _ & -> & Hm).
    exists (c :: x), mid, post. simpl. split; [reflexivity|]. split; [lia|]. split.
    - f_equal; lia.
    - rewrite <- !app_assoc. exact Hm. }
  induction a as [|c a IH]; intros skip b m Hin.
  - destruct skip as [|n]; simpl in Hin; [|contradiction].
    destruct (match_here r b []) as [[b' a']|] eqn:E; [|contradiction].
    destruct Hin as [<-|[]].
    destruct (match_here_sound _ _ _ _ _ E) as (x & Hx & -> & _).
    symmetry in Hx. apply app_eq_nil in Hx. destruct Hx as [-> ->].
    exists [], [], []. simpl. rewrite Nat.sub_diag. simpl.
    split; [reflexivity|]. split; [lia|]. split; [f_equal; lia|exact E].
  - destruct skip as [|n]; simpl in Hin.
    + destruct (match_here r b (c :: a)) as [[b' a']|] eqn:E.
      * destruct Hin as [<-|Hin].
        -- destruct (match_here_sound _ _ _ _ _ E) as (y & Hy & -> & _).
           exists [], y, a'. simpl. rewrite Hy in *.
           rewrite length_app, length_rev.
           replace (length y + length b - length b) with (length y) by lia.
           rewrite firstn_app, firstn_all, Nat.sub_diag. simpl. rewrite app_nil_r.
           split; [reflexivity|]. split; [lia|]. split; [f_equal; lia|exact E].
        -- eapply Hcons. eapply IH. exact Hin.
      * eapply Hcons. eapply IH. exact Hin.
    + destruct (Hcons c a b m n (IH _ _ _ Hin)) as (x & mid & post & Hx & _ & Hm & Hh).
      exists x, mid, post. repeat split; auto.
      destruct (IH _ _ _ Hin) as (x0 & mid0 & post0 & -> & Hn & -> & _).
      destruct x as [|d x]; simpl in *.
      * inversion Hm. lia.
      * inversion Hm. lia.
Qed.

Lemma finditer_sound t m :
  In m (finditer r t) ->
  exists pre post,
    t = pre ++ m_group m ++ post
    /\ m_start m = length pre
    /\ m_end m = length pre + length (m_group m)
    /\ match_here r (rev pre) (m_group m ++ post)
       = Some (rev (m_group m) ++ rev pre, post).
Proof.
  intros H. destruct (scan_sound _ _ _ _ H) as (x & mid & post & -> & _ & -> & Hm).
  rewrite app_nil_r in Hm. exists x, post. simpl. auto.
Qed.

(** The matches found from a position on start at or after it. *)
Lemma scan_starts a skip b m :
  In m (scan r skip b a) -> length b + skip <= m_start m.
Proof.
  intros H. destruct (scan_sound _ _ _ _ H) as (x & mid & post & _ & Hs & -> & _).
  simpl. lia.
Qed.

(** Skipping the characters of the match found last. *)
Lemma scan_skip y : forall b a,
  scan r (length y) b (y ++ a) = scan r 0 (rev y ++ b) a.
Proof.
  induction y as [|c y IH]; intros b a; [reflexivity|].
  simpl. rewrite IH, <- app_assoc. reflexivity.
Qed.

(** A match found at the position of the scan, and the scan after it. *)
Lemma scan_found b c x a :
  match_here r b (c :: x ++ a) = Some (rev (c :: x) ++ b, a) ->
  scan r 0 b (c :: x ++ a)
  = mkMatch (length b) (length b + length (c :: x)) (c :: x)
      :: scan r 0 (rev (c :: x) ++ b) a.
Proof.
  intros H.
  change (scan r 0 b (c :: x ++ a))
    with (match match_here r b (c :: x ++ a) with
          | Some (b', _) =>
              mkMatch (length b) (length b') (firstn (length b' - length b) (c :: x ++ a))
                :: scan r (length b' - length b - 1) (c :: b) (x ++ a)
          | None => scan r 0 (c :: b) (x ++ a)
          end).
  rewrite H.
  assert (L : length (rev (c :: x) ++ b) = length b + length (c :: x)).
  { rewrite length_app, length_rev. lia. }
  rewrite L.
  replace (length b + length (c :: x) - length b) with (length (c :: x)) by lia.
  change (c :: x ++ a) with ((c :: x) ++ a).
  rewrite firstn_app, firstn_all, Nat.sub_diag. simpl firstn. rewrite app_nil_r.
  f_equal. simpl length. replace (S (length x) - 1) with (length x) by lia.
  rewrite scan_skip. simpl. rewrite <- app_assoc. reflexivity.
Qed.

End Scanning.

(** ** The bracket look-ahead of Rule 1 *)

Lemma closes_iff t : closes t = true <-> closed_before_open t.
Proof.
  induction t as [|c t IH]; simpl.
  - split; [discriminate|]. intros (u & v & H & _). destruct u; discriminate.
  - destruct (Ascii.eqb c "]") eqn:E1.
    + apply Ascii.eqb_eq in E1. subst c. split; [|reflexivity].
      intros _. exists [], t. simpl. auto.
    + destruct (Ascii.eqb c "[") eqn:E2.
      * apply Ascii.eqb_eq in E2. subst c. split; [discriminate|].
        intros (u & v & H & Hu). destruct u as [|d u]; [discriminate|].
        inversion H; subst. exfalso. apply Hu. left. reflexivity.
      * rewrite IH. split.
        -- intros (u & v & -> & Hu). exists (c :: u), v. split; [reflexivity|].
           intros [->|Hin]; [|auto]. rewrite Ascii.eqb_refl in E2. discriminate.
        -- intros (u & v & H & Hu). destruct u as [|d u].
           ++ inversion H; subst. rewrite Ascii.eqb_refl in E1. discriminate.
           ++ inversion H; subst. exists u, v. split; [reflexivity|].
              intros Hin. apply Hu. right. exact Hin.
Qed.

Lemma closing_ahead_none b a :
  exec closing_ahead b a accept = None <-> closes a = false.
Proof.
  unfold closing_ahead, star. cbn [exec].
  revert b. induction a as [|c a IH]; intros b.
  - simpl. tauto.
  - cbn [rep closes atom_ok existsb item_ok more orb negb].
    destruct (Ascii.eqb c "]") eqn:E1.
    + apply Ascii.eqb_eq in E1. subst c. cbn.
      destruct (rep _ 0 None ("]" :: b) a _); split; discriminate.
    + destruct (Ascii.eqb c "[") eqn:E2; cbn.
      * tauto.
      * specialize (IH (c :: b)). cbn in IH.
        destruct (rep _ 0 None (c :: b) a _).
        -- split; [discriminate|]. intros H. apply IH in H. discriminate.
        -- exact IH.
Qed.

(** Characters that are no brackets do not change the look-ahead. *)
Lemma closes_skip x t :
  forallb (fun c => negb (is_bracket c)) x = true -> closes (x ++ t) = closes t.
Proof.
  induction x as [|c x IH]; simpl; [reflexivity|].
  unfold is_bracket at 1. intros H. apply andb_true_iff in H. destruct H as [Hc Hx].
  apply negb_true_iff, orb_false_iff in Hc. destruct Hc as [E1 E2].
  rewrite E1, E2. auto.
Qed.

(** ** Greedy repetition: the longest run is tried first *)

Lemma rep_greedy p x : forall lo hi b a k r,
  forallb p x = true ->
  lo <= length x ->
  (forall h, hi = Some h -> length x <= h) ->
  hi = Some (length x) \/ stops p a ->
  k (rev x ++ b) a = Some r ->
  rep p lo hi b (x ++ a) k = Some r.
Proof.
  induction x as [|c x IH]; intros lo hi b a k r Hall Hlo Hhi Hmax Hk.
  - simpl in *. assert (lo = 0) by lia. subst lo.
    destruct a as [|c a]; simpl; [exact Hk|].
    destruct Hmax as [->|Hc].
    + simpl. rewrite andb_false_r. exact Hk.
    + simpl in Hc. rewrite Hc. exact Hk.
  - simpl in Hall. apply andb_true_iff in Hall. destruct Hall as [Hc Hx].
    simpl. rewrite Hc.
    assert (Hm : more hi = true).
    { destruct hi as [[|h]|]; try reflexivity. specialize (Hhi 0 eq_refl). simpl in Hhi. lia. }
    rewrite Hm. simpl.
    rewrite (IH (pred lo) (dec hi) (c :: b) a k r); auto.
    + simpl in Hlo. lia.
    + intros h Hd. destruct hi as [h0|]; [|discriminate]. simpl in Hd.
      inversion Hd; subst. specialize (Hhi h0 eq_refl). simpl in Hhi. lia.
    + destruct Hmax as [->|Hs]; [left|right; exact Hs]. reflexivity.
    + simpl in Hk. rewrite <- app_assoc in Hk. exact Hk.
Qed.

(** A repetition that needs one character fails where none fits. *)
Lemma rep_needs_one p hi b a k lo :
  stops p a -> rep p (S lo) hi b a k = None.
Proof.
  destruct a as [|c a]; simpl; [reflexivity|]. intros ->. reflexivity.
Qed.

(** ** The number part of Rule 1: [\d{1,4}[,\d]*] *)

Lemma number_part_rest x : forall lo n b a k r,
  forallb digit_or_comma x = true ->
  stops digit_or_comma a ->
  lo <= 1 ->
  (lo = 1 -> 1 <= n /\ exists c x', x = c :: x' /\ Chars.is_decimal c = true) ->
  k (rev x ++ b) a = Some r ->
  rep (atom_ok Digit) lo (Some n) b (x ++ a)
      (fun b' a' => rep digit_or_comma 0 None b' a' k) = Some r.
Proof.
  induction x as [|c x IH]; intros lo n b a k r Hall Hstop Hlo H1 Hk.
  - assert (lo = 0).
    { destruct lo as [|[|lo]]; [reflexivity| |lia].
      destruct (H1 eq_refl) as (_ & c & x' & Hx & _). discriminate. }
    subst lo. simpl in Hk |- *.
    destruct a as [|c a]; simpl; [exact Hk|].
    simpl in Hstop.
    assert (Hd : Chars.is_decimal c = false).
    { destruct (Chars.is_decimal c) eqn:E; [|reflexivity].
      apply digit_is_digit_or_comma in E. congruence. }
    rewrite Hd, Hstop. exact Hk.
  - simpl in Hall. apply andb_true_iff in Hall. destruct Hall as [Hc Hx].
    assert (Hrest : rep digit_or_comma 0 None b ((c :: x) ++ a) k = Some r).
    { apply rep_greedy; auto.
      - simpl. rewrite Hc, Hx. reflexivity.
      - lia.
      - discriminate. }
    change ((c :: x) ++ a) with (c :: (x ++ a)) in *.
    cbn [rep atom_ok].
    destruct (Chars.is_decimal c && more (Some n)) eqn:E.
    + apply andb_true_iff in E. destruct E as [Ed Em].
      change (dec (Some n)) with (Some (pred n)).
      rewrite (IH (pred lo) (pred n) (c :: b) a k r); auto.
      * lia.
      * intros Hp. lia.
      * simpl in Hk. rewrite <- app_assoc in Hk. exact Hk.
    + destruct lo as [|lo]; [exact Hrest|]. exfalso.
      assert (lo = 0) by lia. subst lo.
      destruct (H1 eq_refl) as (Hn & c' & x' & Hcx & Hd). inversion Hcx; subst c' x'.
      rewrite Hd in E. destruct n; [lia|]. discriminate.
Qed.

Lemma number_part_match d b a k r :
  number_run d = true ->
  stops digit_or_comma a ->
  k (rev d ++ b) a = Some r ->
  exec (Rep Digit 1 (Some 4)) b (d ++ a)
       (fun b' a' => exec (star (AnyOf [CChar ","; CDigit])) b' a' k) = Some r.
Proof.
  intros Hd Hstop Hk. unfold star. cbn [exec].
  destruct d as [|c ds]; [discriminate|]. simpl in Hd.
  apply andb_true_iff in Hd. destruct Hd as [Hc Hds].
  apply number_part_rest; auto.
  - simpl. rewrite Hds, (digit_is_digit_or_comma _ Hc). reflexivity.
  - intros _. split; [lia|]. eauto.
Qed.

(** ** The unit part of Rule 1 *)

Lemma opt_space_match s b a k r :
  opt_space s = true ->
  stops Chars.is_space a ->
  k (rev s ++ b) a = Some r ->
  exec (opt Space) b (s ++ a) k = Some r.
Proof.
  intros Hs Hstop Hk. unfold opt. cbn [exec].
  destruct s as [|c [|d s]]; try discriminate; simpl in Hs.
  - apply rep_greedy; [reflexivity|simpl; lia| |right; exact Hstop|exact Hk].
    intros h Hh. simpl. lia.
  - apply rep_greedy; [|simpl; lia| |left; reflexivity|exact Hk].
    + simpl. rewrite Hs. reflexivity.
    + intros h Hh. inversion Hh. simpl. lia.
Qed.

Lemma units_match u post b k r :
  unit_here u post ->
  k (rev u ++ b) post = Some r ->
  exec units b (u ++ post) k = Some r.
Proof.
  intros Hu Hk. destruct Hu as [u post Hin|post Hs|ws ds post Hws Hne Hds Hstop].
  - simpl in Hin. destruct Hin as [<-|Hin].
    + unfold units, opt.
      cbn [exec lits lits_of str list_ascii_of_string app atom_ok Ascii.eqb Bool.eqb].
      rewrite (rep_greedy (atom_ok (Lit "s")) ["s"] 0 (Some 1) _ post k r);
        [reflexivity|reflexivity|simpl; lia| |left; reflexivity|exact Hk].
      intros h Hh. inversion Hh. simpl. lia.
    + repeat (destruct Hin as [<-|Hin];
              [cbn; simpl in Hk; rewrite Hk; reflexivity|]).
      contradiction.
  - unfold units, opt.
    cbn [exec lits lits_of str list_ascii_of_string app atom_ok Ascii.eqb Bool.eqb].
    rewrite (rep_greedy (atom_ok (Lit "s")) [] 0 (Some 1) _ post k r);
      [reflexivity|reflexivity|simpl; lia| |right; exact Hs|exact Hk].
    intros h Hh. simpl. lia.
  - unfold units.
    change (str "line" ++ ws ++ ds) with ("l" :: "i" :: "n" :: "e" :: ws ++ ds) in *.
    cbn [exec lits lits_of str list_ascii_of_string app atom_ok Ascii.eqb Bool.eqb].
    rewrite <- app_assoc.
    rewrite (opt_space_match ws _ _ _ r); [reflexivity|exact Hws| |].
    + destruct ds as [|d ds]; [congruence|]. simpl in Hds |- *.
      apply andb_true_iff in Hds. apply digit_not_space. tauto.
    + unfold plus. cbn [exec]. apply rep_greedy; [exact Hds| |discriminate|right; exact Hstop|].
      * destruct ds; [congruence|simpl; lia].
      * simpl in Hk. rewrite rev_app_distr, <- !app_assoc in Hk.
        exact Hk.
Qed.

Lemma unit_here_head u post :
  unit_here u post ->
  exists c u', u = c :: u'
    /\ digit_or_comma c = false /\ Chars.is_space c = false.
Proof.
  intros [u0 post0 Hin|post0 _|ws ds post0 _ _ _ _].
  - simpl in Hin.
    repeat (destruct Hin as [<-|Hin]; [eexists _, _; repeat split; reflexivity|]).
    contradiction.
  - eexists _, _; repeat split; reflexivity.
  - eexists _, _; repeat split; reflexivity.
Qed.

(** ** Rule 1 at a position *)

Lemma rule1_match_here b d s u post :
  not_after_open b ->
  number_run d = true ->
  opt_space s = true ->
  unit_here u post ->
  closes post = false ->
  match_here suspect_numbers_pattern b (d ++ s ++ u ++ post)
  = Some (rev (d ++ s ++ u) ++ b, post).
Proof.
  intros Hb Hd Hs Hu Hpost.
  destruct (unit_here_head _ _ Hu) as (c & u' & Hcu & Hc1 & Hc2).
  unfold match_here, suspect_numbers_pattern. cbn [exec].
  assert (Hnb : forall X : option pos,
            match b with
            | [] => X
            | c0 :: _ => if atom_ok (Lit "[") c0 then None else X
            end = X).
  { intros X. destruct b as [|c0 b]; [reflexivity|]. simpl in Hb |- *.
    rewrite Hb. reflexivity. }
  rewrite Hnb. apply number_part_match; [exact Hd| |].
  - destruct s as [|c0 [|? ?]]; try discriminate; simpl in Hs |- *.
    + rewrite Hcu. exact Hc1.
    + apply space_not_digit_or_comma. exact Hs.
  - apply opt_space_match; [exact Hs| |].
    + rewrite Hcu. exact Hc2.
    + apply units_match; [exact Hu|].
      cbn [exec].
      rewrite (proj2 (closing_ahead_none (rev u ++ rev s ++ rev d ++ b) post) Hpost).
      unfold accept. rewrite !rev_app_distr, <- !app_assoc. reflexivity.
Qed.

(** Rule 1 starts at a digit only. *)
Lemma rule1_needs_digit b a :
  stops Chars.is_decimal a -> match_here suspect_numbers_pattern b a = None.
Proof.
  intros H. unfold match_here, suspect_numbers_pattern. cbn [exec].
  destruct b as [|c b]; [|destruct (atom_ok (Lit "[") c); [reflexivity|]];
    apply rep_needs_one; exact H.
Qed.

(** ** Walking the scan *)

Lemma scan_rule1_no_digit pre : forall b a,
  no_digit pre = true ->
  scan suspect_numbers_pattern 0 b (pre ++ a)
  = scan suspect_numbers_pattern 0 (rev pre ++ b) a.
Proof.
  induction pre as [|c pre IH]; intros b a H; [reflexivity|].
  simpl in H. apply andb_true_iff in H. destruct H as [Hc Hp].
  apply negb_true_iff in Hc.
  change (scan suspect_numbers_pattern 0 b ((c :: pre) ++ a))
    with (match match_here suspect_numbers_pattern b (c :: pre ++ a) with
          | Some (b', _) =>
              mkMatch (length b) (length b') (firstn (length b' - length b) (c :: pre ++ a))
                :: scan suspect_numbers_pattern (length b' - length b - 1) (c :: b) (pre ++ a)
          | None => scan suspect_numbers_pattern 0 (c :: b) (pre ++ a)
          end).
  rewrite rule1_needs_digit by exact Hc.
  rewrite IH by exact Hp. simpl. rewrite <- app_assoc. reflexivity.
Qed.

(** ** The matcher depends on what the continuation answers only *)

Lemma rep_ext p a : forall lo hi b k1 k2,
  (forall b' a', k1 b' a' = k2 b' a') ->
  rep p lo hi b a k1 = rep p lo hi b a k2.
Proof.
  induction a as [|c a IH]; intros lo hi b k1 k2 H; simpl.
  - rewrite H. reflexivity.
  - rewrite (IH (pred lo) (dec hi) (c :: b) k1 k2 H), H. reflexivity.
Qed.

Lemma exec_ext r : forall b a k1 k2,
  (forall b' a', k1 b' a' = k2 b' a') ->
  exec r b a k1 = exec r b a k2.
Proof.
  induction r as [|y|y lo hi|r1 IH1 r2 IH2|r1 IH1 r2 IH2|y|r' _|];
    intros b a k1 k2 H; simpl; rewrite ?H; auto.
  - destruct a as [|c a]; [reflexivity|]. rewrite H. reflexivity.
  - apply rep_ext. exact H.
  - rewrite (IH1 b a k1 k2 H), (IH2 b a k1 k2 H). reflexivity.
Qed.

Lemma scan_ext r1 r2 :
  (forall b a, match_here r1 b a = match_here r2 b a) ->
  forall a skip b, scan r1 skip b a = scan r2 skip b a.
Proof.
  intros H. induction a as [|c a IH]; intros skip b.
  - destruct skip; simpl; [rewrite H|]; reflexivity.
  - destruct skip as [|n]; simpl.
    + rewrite H. destruct (match_here r2 b (c :: a)) as [[b' a']|]; rewrite ?IH; reflexivity.
    + apply IH.
Qed.

(** ** Rule 1 without its "rows" alternative *)

Lemma after_unit_none b a : after_unit b a = None <-> closes a = true.
Proof.
  unfold after_unit. cbn [exec].
  destruct (exec closing_ahead b a accept) eqn:E.
  - split; [intros _|reflexivity].
    destruct (closes a) eqn:C; [reflexivity|].
    apply closing_ahead_none with (b := b) in C. congruence.
  - apply closing_ahead_none in E. rewrite E. split; discriminate.
Qed.

(** Where "row" is refused, "rows" is refused too: the look-ahead reads
    past the "s". *)
Lemma rows_refused b a :
  exec (lits "row") b a after_unit = None ->
  exec (lits "rows") b a after_unit = None.
Proof.
  destruct a as [|c1 [|c2 [|c3 [|c4 a]]]]; try reflexivity;
    cbn [exec lits lits_of str list_ascii_of_string atom_ok];
    destruct (Ascii.eqb c1 "r"); try reflexivity;
    destruct (Ascii.eqb c2 "o"); try reflexivity;
    destruct (Ascii.eqb c3 "w"); try reflexivity.
  intros H. destruct (Ascii.eqb c4 "s") eqn:E; [|reflexivity].
  apply Ascii.eqb_eq in E. subst c4.
  apply after_unit_none in H. apply after_unit_none.
  simpl in H. exact H.
Qed.

Lemma units_rows_dead b a :
  exec units b a after_unit = exec units_without_rows b a after_unit.
Proof.
  unfold units, units_without_rows. cbn [exec].
  repeat match goal with
         | |- match ?e with Some _ => _ | None => _ end
              = match ?e with Some _ => _ | None => _ end =>
             destruct e eqn:?; [reflexivity|]
         end.
  match goal with
  | H : exec (lits "row") b a after_unit = None |- _ =>
      rewrite (rows_refused _ _ H)
  end.
  reflexivity.
Qed.

Lemma rule1_rows_dead b a :
  match_here suspect_numbers_pattern b a
  = match_here suspect_numbers_without_rows b a.
Proof.
  unfold match_here, suspect_numbers_pattern, suspect_numbers_without_rows.
  cbn [exec].
  assert (E : forall k1 k2 : option pos, k1 = k2 ->
            match b with
            | [] => k1
            | c :: _ => if atom_ok (Lit "[") c then None else k1
            end
            = match b with
              | [] => k2
              | c :: _ => if atom_ok (Lit "[") c then None else k2
              end) by (intros ? ? ->; reflexivity).
  apply E. apply rep_ext. intros b1 a1. apply rep_ext. intros b2 a2.
  apply rep_ext. intros b3 a3. apply units_rows_dead.
Qed.

(** ** The shape of a Rule-1 match *)

Lemma denote_lits l : forall b x a, denote (lits_of l) b x a -> x = l.
Proof.
  induction l as [|c l IH]; intros b x a H; [exact H|].
  destruct l as [|c' l].
  - destruct H as (c0 & -> & E). apply Ascii.eqb_eq in E. subst. reflexivity.
  - destruct H as (x1 & x2 & -> & (c0 & -> & E) & H2).
    apply Ascii.eqb_eq in E. subst c0. apply IH in H2. subst x2. reflexivity.
Qed.

Lemma units_without_rows_shape b x a :
  denote units_without_rows b x a -> In x unit_texts \/ line_unit x.
Proof.
  unfold units_without_rows. cbn [denote].
  intros [H|[H|[H|[H|[H|[H|[H|[H|[H|H]]]]]]]]];
    try (apply denote_lits in H; subst x; left; simpl; tauto).
  - destruct H as (x1 & x2 & -> & H1 & H2 & _ & H3).
    apply denote_lits in H1. subst x1. specialize (H3 1 eq_refl).
    destruct x2 as [|c [|? ?]]; [left; simpl; tauto| |simpl in H3; lia].
    simpl in H2. rewrite andb_true_r in H2. apply Ascii.eqb_eq in H2. subst c.
    left. simpl. tauto.
  - destruct H as (x1 & x2 & -> & H1 & (ws & ds & -> & (Hws & _) & (Hds & _))).
    apply denote_lits in H1. subst x1. right. exists ws, ds. auto.
Qed.

Lemma rule1_shape b x a :
  denote suspect_numbers_without_rows b x a ->
  exists n u, x = n ++ u /\ forallb number_or_space n = true
    /\ (In u unit_texts \/ line_unit u).
Proof.
  unfold suspect_numbers_without_rows, star, opt. cbn [denote].
  intros (x0 & x1 & -> & (-> & _) & (x2 & x3 & -> & H & (-> & _))).
  destruct H as (d1 & y1 & -> & (Hd1 & _) & (d2 & y2 & -> & (Hd2 & _)
                  & (s & u & -> & (Hs & _) & Hu))).
  apply units_without_rows_shape in Hu.
  exists (d1 ++ d2 ++ s), u. simpl. rewrite app_nil_r, <- !app_assoc.
  split; [reflexivity|]. split; [|exact Hu].
  rewrite !forallb_app. unfold number_or_space.
  apply andb_true_iff; split; [|apply andb_true_iff; split].
  - apply forallb_forall. intros c Hc.
    rewrite forallb_forall in Hd1. specialize (Hd1 c Hc). simpl in Hd1.
    rewrite (digit_is_digit_or_comma _ Hd1). reflexivity.
  - apply forallb_forall. intros c Hc.
    rewrite forallb_forall in Hd2. specialize (Hd2 c Hc).
    unfold digit_or_comma. rewrite Hd2. reflexivity.
  - apply forallb_forall. intros c Hc.
    rewrite forallb_forall in Hs. specialize (Hs c Hc). simpl in Hs.
    rewrite Hs. apply orb_true_r.
Qed.

(** Every match of Rule 1 is a number, an optional space and a unit. *)
Lemma rule1_match_shape t m :
  In m (find_suspect_numbers t) ->
  exists n u, m_group m = n ++ u /\ forallb number_or_space n = true
    /\ (In u unit_texts \/ line_unit u).
Proof.
  intros H. unfold find_suspect_numbers in H.
  destruct (finditer_sound _ _ _ H) as (pre & post & _ & _ & _ & Hm).
  rewrite rule1_rows_dead in Hm.
  destruct (match_here_sound _ _ _ _ _ Hm) as (x & Hx & _ & D).
  apply app_inv_tail in Hx. subst x.
  eapply rule1_shape. exact D.
Qed.

(** ** Substrings *)

Lemma starts_with_iff p : forall t,
  starts_with p t = true <-> exists v, t = p ++ v.
Proof.
  induction p as [|c p IH]; intros t; simpl.
  - split; [intros _; exists t; reflexivity|reflexivity].
  - destruct t as [|d t].
    + split; [discriminate|]. intros (v & H). discriminate.
    + rewrite andb_true_iff, IH. split.
      * intros (E & v & ->). apply Ascii.eqb_eq in E. subst. exists v. reflexivity.
      * intros (v & H). inversion H; subst. rewrite Ascii.eqb_refl. eauto.
Qed.

Lemma contains_iff p : forall t, contains p t = true <-> has_sub p t.
Proof.
  induction t as [|d t IH].
  - simpl. rewrite orb_false_r, starts_with_iff. split.
    + intros (v & H). exists [], v. exact H.
    + intros (u & v & H). destruct u as [|? ?]; [|discriminate]. exists v. exact H.
  - simpl. rewrite orb_true_iff, IH.
    change (match p with
            | [] => true
            | c :: p' => (c =? d)%char && starts_with p' t
            end) with (starts_with p (d :: t)).
    rewrite starts_with_iff. split.
    + intros [(v & H)|(u & v & H)].
      * exists [], v. exact H.
      * exists (d :: u), v. simpl. rewrite H. reflexivity.
    + intros (u & v & H). destruct u as [|e u].
      * left. exists v. exact H.
      * right. inversion H; subst. exists u, v. reflexivity.
Qed.

Lemma contains_skip c p n : forall u,
  lacks c n = true -> contains (c :: p) (n ++ u) = contains (c :: p) u.
Proof.
  induction n as [|d n IH]; intros u H; [reflexivity|].
  simpl in H. apply andb_true_iff in H. destruct H as [Hd Hn].
  apply negb_true_iff in Hd. rewrite Ascii.eqb_sym in Hd.
  simpl. rewrite Hd. simpl. apply (IH u Hn).
Qed.

Lemma contains_lacking c p t : lacks c t = true -> contains (c :: p) t = false.
Proof.
  intros H. rewrite <- (app_nil_r t), contains_skip by exact H. reflexivity.
Qed.

Lemma number_or_space_not_r c : number_or_space c = true -> negb (Ascii.eqb c "r") = true.
Proof. by_cases_on_char c. Qed.

Lemma space_not_r c : Chars.is_space c = true -> negb (Ascii.eqb c "r") = true.
Proof. by_cases_on_char c. Qed.

Lemma digit_not_r c : Chars.is_decimal c = true -> negb (Ascii.eqb c "r") = true.
Proof. by_cases_on_char c. Qed.

Lemma forallb_impl (p q : ascii -> bool) l :
  (forall c, p c = true -> q c = true) -> forallb p l = true -> forallb q l = true.
Proof.
  intros H. rewrite !forallb_forall. auto.
Qed.

(** A Rule-1 match in which "row" occurs ends with it. *)
Lemma rule1_row_at_end t m :
  In m (find_suspect_numbers t) ->
  contains (str "row") (m_group m) = true ->
  exists n, m_group m = n ++ str "row" /\ forallb number_or_space n = true.
Proof.
  intros Hin Hc.
  destruct (rule1_match_shape _ _ Hin) as (n & u & Hg & Hn & Hu).
  rewrite Hg in Hc |- *.
  change (str "row") with ("r" :: str "ow") in Hc.
  rewrite contains_skip in Hc
    by (eapply forallb_impl; [apply number_or_space_not_r|exact Hn]).
  destruct Hu as [Hu|(ws & ds & -> & Hws & Hds)].
  - simpl in Hu.
    repeat (destruct Hu as [<-|Hu]; [try (vm_compute in Hc; discriminate)|]);
      try contradiction.
    exists n. auto.
  - exfalso. rewrite contains_lacking in Hc; [discriminate|].
    unfold lacks. simpl. rewrite forallb_app. apply andb_true_iff; split.
    + eapply forallb_impl; [apply space_not_r|exact Hws].
    + eapply forallb_impl; [apply digit_not_r|exact Hds].
Qed.

(** ** The report *)

Lemma fold_add_rows t l : forall tb,
  fold_left (fun tb m => add_row (row_of t m) tb) l tb
  = mkTable (t_title tb) (t_columns tb) (t_rows tb ++ map (row_of t) l).
Proof.
  induction l as [|m l IH]; intros tb; simpl.
  - rewrite app_nil_r. destruct tb; reflexivity.
  - rewrite IH. simpl. rewrite <- app_assoc. reflexivity.
Qed.

Lemma report_clean t :
  issues_of t = [] ->
  report t = [mkPrinted (Line clean_message) (Some "bold green"%string)].
Proof.
  intros H. unfold report. rewrite H. reflexivity.
Qed.

Lemma report_findings t :
  issues_of t <> [] ->
  report t = [ mkPrinted (Grid (findings_table t)) None;
               mkPrinted (Line (summary (length (issues_of t)))) (Some "bold red"%string) ].
Proof.
  intros H. unfold report, findings_table.
  destruct (issues_of t) as [|m l] eqn:E; [congruence|].
  rewrite fold_add_rows. reflexivity.
Qed.

Lemma rows_shown_eq t : rows_shown t = map (row_of t) (issues_of t).
Proof.
  unfold rows_shown. destruct (issues_of t) as [|m l] eqn:E.
  - rewrite report_clean by exact E. reflexivity.
  - rewrite report_findings by congruence. simpl. rewrite E, app_nil_r. reflexivity.
Qed.

(** ** The context window *)

Lemma context_window t m :
  context_of t m = replace_newlines (window t (m_start m) (m_end m)).
Proof.
  unfold context_of, slice, window. f_equal.
  replace (Z.to_nat (Z.max 0 (Z.of_nat (m_start m) - 30))) with (m_start m - 30) by lia.
  replace (Z.to_nat (Z.min (Z.of_nat (length t)) (Z.of_nat (m_end m) + 30)))
    with (Nat.min (length t) (m_end m + 30)) by lia.
  reflexivity.
Qed.

Lemma replace_newlines_none t : ~ In "010" (replace_newlines t).
Proof.
  unfold replace_newlines. rewrite in_map_iff. intros (c & H & _).
  destruct (Ascii.eqb c "010") eqn:E; [discriminate|].
  subst c. discriminate.
Qed.

Lemma lstrip_suffix t : exists l, t = l ++ lstrip t /\ forallb Chars.is_space l = true.
Proof.
  induction t as [|c t (l & IH & Hl)]; simpl.
  - exists []. auto.
  - destruct (Chars.is_space c) eqn:E.
    + exists (c :: l). simpl. rewrite E, Hl. split; [f_equal; exact IH|reflexivity].
    + exists []. auto.
Qed.

Lemma lstrip_head t : stops Chars.is_space (lstrip t).
Proof.
  induction t as [|c t IH]; simpl; [exact I|].
  destruct (Chars.is_space c) eqn:E; [exact IH|exact E].
Qed.

(** [strip] removes a run of white space at each end and nothing else. *)
Lemma strip_spec t :
  exists l r, t = l ++ strip t ++ r
    /\ forallb Chars.is_space l = true /\ forallb Chars.is_space r = true
    /\ stops Chars.is_space (strip t) /\ stops Chars.is_space (rev (strip t)).
Proof.
  unfold strip, rstrip.
  destruct (lstrip_suffix t) as (l & Ht & Hl).
  destruct (lstrip_suffix (rev (lstrip t))) as (r & Hr & Hrs).
  exists l, (rev r). split; [|split; [exact Hl|split; [|split]]].
  - rewrite <- rev_app_distr, <- Hr, rev_involutive. exact Ht.
  - rewrite forallb_forall in *. intros c Hc. apply Hrs. apply in_rev. exact Hc.
  - set (u := lstrip (rev (lstrip t))) in *.
    assert (Hu : lstrip t = rev u ++ rev r).
    { rewrite <- rev_app_distr, <- Hr, rev_involutive. reflexivity. }
    destruct (rev u) as [|c v] eqn:E; [exact I|].
    simpl. pose proof (lstrip_head t) as Hh. rewrite Hu in Hh. exact Hh.
  - rewrite rev_involutive. apply lstrip_head.
Qed.

Lemma in_firstn (n : nat) (c : ascii) (l : text) : In c (firstn n l) -> In c l.
Proof.
  intros H. rewrite <- (firstn_skipn n l). apply in_or_app. left. exact H.
Qed.

Lemma in_strip c t : In c (strip t) -> In c t.
Proof.
  destruct (strip_spec t) as (l & r & Ht & _). intros H.
  rewrite Ht. apply in_or_app. right. apply in_or_app. left. exact H.
Qed.

(** ** Brackets around a Rule-1 match *)

Lemma not_after_open_rev pre : not_after_open (rev pre) <-> ~ ends_with_open pre.
Proof.
  unfold not_after_open, ends_with_open. split.
  - intros H (p & ->). rewrite rev_app_distr in H. simpl in H. discriminate.
  - intros H. destruct (rev pre) as [|c l] eqn:E; [exact I|].
    destruct (Ascii.eqb c "[") eqn:Ec; [|reflexivity].
    exfalso. apply H. apply Ascii.eqb_eq in Ec. subst c.
    exists (rev l). rewrite <- (rev_involutive pre), E. reflexivity.
Qed.

Lemma rule1_lookarounds b x a :
  denote suspect_numbers_pattern b x a ->
  not_after_open b /\ closes a = false.
Proof.
  unfold suspect_numbers_pattern. cbn [denote].
  intros (x0 & x1 & -> & (-> & Hb) & (x2 & x3 & -> & _ & (-> & Ha))).
  split.
  - destruct b as [|c b]; [exact I|exact Hb].
  - apply closing_ahead_none in Ha. exact Ha.
Qed.

(** ** Examples: the two searches on the inputs the specification names *)

Example scan_processed_1500_bytes :
  find_suspect_numbers (str "Processed 1500 bytes total")
  = [mkMatch 10 20 (str "1500 bytes")]
  /\ find_fake_paths (str "Processed 1500 bytes total") = [].
Proof. vm_compute. split; reflexivity. Qed.

Example scan_42_widgets :
  issues_of (str "42 widgets") = [].
Proof. vm_compute. reflexivity. Qed.

Example scan_lone_closing_bracket :
  find_suspect_numbers (str "10 ms. See [1]") = [mkMatch 0 5 (str "10 ms")]
  /\ find_suspect_numbers (str "10 ms ] x") = [].
Proof. vm_compute. split; reflexivity. Qed.

Example scan_overlapping_phrases :
  find_suspect_numbers (str "5 line 6 bytes") = [mkMatch 0 8 (str "5 line 6")].
Proof. vm_compute. reflexivity. Qed.

Example scan_phrase_inside_a_path :
  issues_of (str "a5B.rs:3")
  = [mkMatch 1 3 (str "5B"); mkMatch 0 8 (str "a5B.rs:3")].
Proof. vm_compute. reflexivity. Qed.

Example scan_after_open_bracket :
  find_suspect_numbers (str "[1500 bytes") = [mkMatch 2 11 (str "500 bytes")].
Proof. vm_compute. reflexivity. Qed.

Example scan_row_inside_rule2_match :
  map (row_of (str "throw()")) (issues_of (str "throw()"))
  = [mkRow (str "Line/Reference") (str "throw()") (str "throw()...")].
Proof. vm_compute. reflexivity. Qed.

(** ** Rule 1 finds an unbracketed phrase *)

(** A number, an optional space and a unit, after a text without digits that
    does not end with an opening bracket, and before a text in which no
    closing bracket comes first: Rule 1 reports the phrase, and goes on with
    the text after it. *)
Lemma rule1_phrase_found (pre d s u post : text) :
  no_digit pre = true ->
  ~ ends_with_open pre ->
  number_run d = true ->
  opt_space s = true ->
  unit_here u post ->
  ~ closed_before_open post ->
  find_suspect_numbers (pre ++ d ++ s ++ u ++ post)
  = mkMatch (length pre) (length pre + length (d ++ s ++ u)) (d ++ s ++ u)
      :: scan suspect_numbers_pattern 0 (rev (d ++ s ++ u) ++ rev pre) post.
Proof.
  intros Hpre Hopen Hd Hs Hu Hpost.
  assert (Hc : closes post = false).
  { destruct (closes post) eqn:E; [|reflexivity].
    exfalso. apply Hpost, closes_iff. exact E. }
  apply not_after_open_rev in Hopen.
  pose proof (rule1_match_here (rev pre) d s u post Hopen Hd Hs Hu Hc) as Hm.
  unfold find_suspect_numbers, finditer.
  rewrite scan_rule1_no_digit by exact Hpre. rewrite app_nil_r.
  destruct d as [|c ds]; [discriminate|].
  replace ((c :: ds) ++ s ++ u ++ post) with (c :: (ds ++ s ++ u) ++ post) in *
    by (simpl; rewrite <- !app_assoc; reflexivity).
  change ((c :: ds) ++ s ++ u) with (c :: (ds ++ s ++ u)) in *.
  rewrite (scan_found _ _ _ _ _ Hm), length_rev. reflexivity.
Qed.

(** ** A number-and-unit phrase between brackets *)

Lemma rule2_shape b g a :
  denote fake_paths_pattern b g a -> existsb is_mark g = true.
Proof.
  unfold fake_paths_pattern, plus. cbn [denote].
  intros [H|[H|[H|H]]].
  - destruct H as (x1 & x2 & -> & _ & (y1 & y2 & -> & H & _)).
    apply denote_lits in H. subst y1.
    rewrite existsb_app. apply orb_true_iff. right. reflexivity.
  - destruct H as (x1 & x2 & -> & _ & H).
    apply denote_lits in H. subst x2.
    rewrite existsb_app. apply orb_true_iff. right. reflexivity.
  - destruct H as (x1 & x2 & -> & (-> & _) & H).
    apply denote_lits in H. subst x2. reflexivity.
  - destruct H as (x1 & x2 & -> & (-> & _) & H).
    apply denote_lits in H. subst x2. reflexivity.
Qed.

(** Rule 2 finds nothing in a text without marks. *)
Lemma rule2_needs_mark t :
  existsb is_mark t = false -> find_fake_paths t = [].
Proof.
  intros Ht. destruct (find_fake_paths t) as [|m l] eqn:E; [reflexivity|].
  exfalso. assert (Hin : In m (find_fake_paths t)) by (rewrite E; left; reflexivity).
  destruct (finditer_sound _ _ _ Hin) as (pre & post & Htx & _ & _ & Hm).
  destruct (match_here_sound _ _ _ _ _ Hm) as (x & Hx & _ & D).
  apply app_inv_tail in Hx. subst x. apply rule2_shape in D.
  rewrite Htx, !existsb_app, D in Ht. rewrite orb_true_r in Ht. discriminate.
Qed.

Lemma number_or_space_plain c : number_or_space c = true -> is_plain c = true.
Proof. by_cases_on_char c. Qed.

Lemma space_plain c : Chars.is_space c = true -> is_plain c = true.
Proof. by_cases_on_char c. Qed.

Lemma digit_plain c : Chars.is_decimal c = true -> is_plain c = true.
Proof. by_cases_on_char c. Qed.

Lemma digit_or_comma_plain c : digit_or_comma c = true -> is_plain c = true.
Proof. by_cases_on_char c. Qed.

Lemma unit_word_plain u : unit_word u -> u <> [] /\ forallb is_plain u = true.
Proof.
  intros [H|(ws & ds & -> & Hws & Hds)].
  - simpl in H.
    repeat (destruct H as [<-|H]; [split; [discriminate|reflexivity]|]).
    contradiction.
  - split; [discriminate|]. simpl. rewrite forallb_app.
    apply andb_true_iff; split.
    + eapply forallb_impl; [apply space_plain|exact Hws].
    + eapply forallb_impl; [apply digit_plain|exact Hds].
Qed.

(** A match of Rule 1 is not empty and holds neither brackets nor marks. *)
Lemma rule1_group_plain t m :
  In m (find_suspect_numbers t) ->
  m_group m <> [] /\ forallb is_plain (m_group m) = true.
Proof.
  intros H. destruct (rule1_match_shape _ _ H) as (n & u & -> & Hn & Hu).
  assert (Hw : unit_word u).
  { destruct Hu as [Hu|Hu]; [left; right; exact Hu|right; exact Hu]. }
  apply unit_word_plain in Hw. destruct Hw as [Hne Hp]. split.
  - intros E. apply app_eq_nil in E. tauto.
  - rewrite forallb_app, Hp, andb_true_r.
    eapply forallb_impl; [apply number_or_space_plain|exact Hn].
Qed.

Lemma plain_no_bracket x :
  forallb is_plain x = true -> forallb (fun c => negb (is_bracket c)) x = true.
Proof.
  apply forallb_impl. intros c H. unfold is_plain in H.
  apply andb_true_iff in H. tauto.
Qed.

Lemma closes_before_closing x :
  forallb is_plain x = true -> closes (x ++ ["]"]) = true.
Proof.
  intros H. rewrite closes_skip by (apply plain_no_bracket; exact H). reflexivity.
Qed.

(** Rule 1 finds nothing in a text of plain characters between brackets. *)
Lemma rule1_nothing_between_brackets x :
  forallb is_plain x = true -> find_suspect_numbers ("[" :: x ++ ["]"]) = [].
Proof.
  intros Hx.
  destruct (find_suspect_numbers ("[" :: x ++ ["]"])) as [|m l] eqn:E; [reflexivity|].
  exfalso.
  assert (Hin : In m (find_suspect_numbers ("[" :: x ++ ["]"])))
    by (rewrite E; left; reflexivity).
  destruct (rule1_group_plain _ _ Hin) as [Hne Hg].
  destruct (finditer_sound _ _ _ Hin) as (pre & post & Ht & _ & _ & Hm).
  destruct (match_here_sound _ _ _ _ _ Hm) as (y & Hy & _ & D).
  apply app_inv_tail in Hy. subst y.
  apply rule1_lookarounds in D. destruct D as [Hb Hc].
  destruct pre as [|c pre].
  - destruct (m_group m) as [|c g]; [congruence|].
    simpl in Ht. inversion Ht; subst c. simpl in Hg. discriminate.
  - simpl in Ht. inversion Ht as [[Hc0 Hrest]]. subst c.
    symmetry in Hrest. apply app_eq_app in Hrest.
    destruct Hrest as (z & [[Hp Hz]|[Hp Hz]]).
    + destruct z as [|c z].
      * simpl in Hz. destruct (m_group m) as [|c g]; [congruence|].
        inversion Hz; subst. simpl in Hg. discriminate.
      * inversion Hz as [[Hc1 Hz']]. symmetry in Hz'.
        apply app_eq_nil in Hz'. destruct Hz' as [_ Hz'].
        apply app_eq_nil in Hz'. tauto.
    + subst x. rewrite forallb_app in Hx. apply andb_true_iff in Hx.
      destruct Hx as [_ Hz0].
      assert (Hcl : closes (z ++ ["]"]) = true) by (apply closes_before_closing; exact Hz0).
      rewrite <- Hz in Hcl.
      rewrite closes_skip in Hcl by (apply plain_no_bracket; exact Hg).
      congruence.
Qed.

(** Neither search finds anything in a number, optional white space and a
    unit word put between brackets. *)
Lemma bracketed_phrase_clean d s u :
  forallb digit_or_comma d = true ->
  forallb Chars.is_space s = true ->
  unit_word u ->
  issues_of ("[" :: (d ++ s ++ u) ++ ["]"]) = [].
Proof.
  intros Hd Hs Hu. apply unit_word_plain in Hu. destruct Hu as [_ Hu].
  assert (Hx : forallb is_plain (d ++ s ++ u) = true).
  { rewrite !forallb_app, Hu, andb_true_r. apply andb_true_iff; split.
    - eapply forallb_impl; [apply digit_or_comma_plain|exact Hd].
    - eapply forallb_impl; [apply space_plain|exact Hs]. }
  unfold issues_of. rewrite (rule1_nothing_between_brackets _ Hx).
  rewrite rule2_needs_mark; [reflexivity|].
  simpl. rewrite existsb_app. simpl. rewrite orb_false_r.
  clear -Hx. induction (d ++ s ++ u) as [|c l IH]; [reflexivity|].
  simpl in Hx |- *. apply andb_true_iff in Hx. destruct Hx as [Hc Hl].
  rewrite (IH Hl), orb_false_r. unfold is_plain in Hc.
  apply andb_true_iff in Hc. destruct Hc as [_ Hc]. apply negb_true_iff. exact Hc.
Qed.

(** ** No match is empty *)

(** Both patterns take at least one character, so the scan never meets an
    empty match. *)
Lemma matches_not_empty t m : In m (issues_of t) -> m_start m < m_end m.
Proof.
  unfold issues_of. rewrite in_app_iff. intros [H|H].
  - destruct (rule1_group_plain _ _ H) as [Hne _].
    destruct (finditer_sound _ _ _ H) as (pre & post & _ & -> & -> & _).
    destruct (m_group m); [congruence|simpl; lia].
  - destruct (finditer_sound _ _ _ H) as (pre & post & _ & -> & -> & Hm).
    destruct (match_here_sound _ _ _ _ _ Hm) as (x & Hx & _ & D).
    apply app_inv_tail in Hx. subst x. apply rule2_shape in D.
    destruct (m_group m); [discriminate|simpl; lia].
Qed.

(** ** The order of the matches of one search *)

Section Order.

Variable r : regex.

Lemma match_here_forward b a b' a' :
  match_here r b a = Some (b', a') -> length b <= length b'.
Proof.
  intros H. destruct (match_here_sound _ _ _ _ _ H) as (x & _ & -> & _).
  rewrite length_app. lia.
Qed.

Lemma scan_in_order : forall a skip b, in_order (scan r skip b a).
Proof.
  unfold in_order.
  induction a as [|c a IH]; intros skip b.
  - destruct skip; simpl; [|constructor].
    destruct (match_here r b []) as [[b' a']|]; repeat constructor.
  - destruct skip as [|n]; simpl; [|apply IH].
    destruct (match_here r b (c :: a)) as [[b' a']|] eqn:E; [|apply IH].
    constructor; [apply IH|].
    apply Forall_forall. intros m Hin. apply scan_starts in Hin.
    apply match_here_forward in E. unfold apart. simpl in *. lia.
Qed.

(** A match of the pattern at a position that no reported match runs over is
    reported itself. *)
Lemma scan_finds x : forall skip b y b' a',
  skip <= length x ->
  match_here r (rev x ++ b) y = Some (b', a') ->
  (forall m, In m (scan r skip b (x ++ y)) ->
     m_start m < length b + length x -> m_end m <= length b + length x) ->
  In (mkMatch (length b + length x) (length b')
              (firstn (length b' - (length b + length x)) y))
     (scan r skip b (x ++ y)).
Proof.
  induction x as [|c x IH]; intros skip b y b' a' Hskip Hm Hfree.
  - simpl in Hskip. assert (skip = 0) by lia. subst skip.
    simpl in Hm |- *. rewrite Nat.add_0_r.
    destruct y as [|e y]; simpl; rewrite Hm; left; reflexivity.
  - assert (Hm' : match_here r (rev x ++ c :: b) y = Some (b', a')).
    { simpl in Hm. rewrite <- app_assoc in Hm. exact Hm. }
    assert (Hlen : length (c :: b) + length x = length b + length (c :: x))
      by (simpl; lia).
    destruct skip as [|n].
    + change (scan r 0 b ((c :: x) ++ y))
        with (match match_here r b (c :: x ++ y) with
              | Some (b0, _) =>
                  mkMatch (length b) (length b0)
                          (firstn (length b0 - length b) (c :: x ++ y))
                    :: scan r (length b0 - length b - 1) (c :: b) (x ++ y)
              | None => scan r 0 (c :: b) (x ++ y)
              end) in *.
      destruct (match_here r b (c :: x ++ y)) as [[b0 a0]|] eqn:E0.
      * right. rewrite <- Hlen.
        apply (IH _ (c :: b) y b' a'); [|exact Hm'|].
        -- specialize (Hfree _ (or_introl eq_refl)). simpl in Hfree. lia.
        -- intros m Hin. rewrite Hlen. apply Hfree. right. exact Hin.
      * rewrite <- Hlen.
        apply (IH 0 (c :: b) y b' a'); [lia|exact Hm'|].
        intros m Hin. rewrite Hlen. apply Hfree. exact Hin.
    + change (scan r (S n) b ((c :: x) ++ y)) with (scan r n (c :: b) (x ++ y)) in *.
      rewrite <- Hlen.
      apply (IH n (c :: b) y b' a'); [simpl in Hskip; lia|exact Hm'|].
      intros m Hin. rewrite Hlen. apply Hfree. exact Hin.
Qed.

End Order.

(** Two matches of a list in order are the same match, or one lies before the
    other. *)
Lemma in_order_pair l : forall m1 m2,
  in_order l -> In m1 l -> In m2 l ->
  m1 = m2 \/ apart m1 m2 \/ apart m2 m1.
Proof.
  unfold in_order. induction l as [|m l IH]; intros m1 m2 Hs H1 H2; [contradiction|].
  inversion Hs as [|? ? Hl Hall]; subst. rewrite Forall_forall in Hall.
  destruct H1 as [<-|H1]; destruct H2 as [<-|H2]; auto.
Qed.



(** ** Printing the report *)

Lemma str_app s1 s2 : str (s1 ++ s2)%string = str s1 ++ str s2.
Proof.
  unfold str. induction s1 as [|c s1 IH]; simpl; [reflexivity|].
  rewrite IH. reflexivity.
Qed.

(** A string without "[" is printed as it is. *)
Lemma no_open_never_raises rich c : lacks "[" c = true -> cell_raises rich c = false.
Proof.
  intros H. unfold cell_raises. change (str "[") with ["["%char].
  rewrite (contains_lacking _ _ _ H). reflexivity.
Qed.

Lemma decimal_lacks_open d : lacks "[" (str (NilEmpty.string_of_uint d)) = true.
Proof.
  induction d; simpl; try exact IHd; reflexivity.
Qed.

Lemma summary_never_raises rich n st :
  print_raises rich (mkPrinted (Line (summary n)) st) = false.
Proof.
  unfold print_raises. cbn [p_what]. apply no_open_never_raises.
  unfold summary, decimal, lacks.
  change (str (String "010" ?s)) with ("010"%char :: str s).
  cbn [str list_ascii_of_string forallb].
  fold (str ("Found " ++ NilEmpty.string_of_uint (Nat.to_uint n)
             ++ " potential hallucinations. Fix or flag before publishing.")%string).
  rewrite (str_app "Found "), str_app, !forallb_app.
  fold (lacks "[" (str (NilEmpty.string_of_uint (Nat.to_uint n)))).
  rewrite decimal_lacks_open. reflexivity.
Qed.

Lemma table_frame_never_raises rich rows :
  table_raises rich (mkTable table_title ["Type"; "Match"; "Context"]%string rows)
  = existsb (row_raises rich) rows.
Proof.
  unfold table_raises. cbn [t_title t_columns t_rows existsb].
  rewrite !no_open_never_raises by reflexivity. reflexivity.
Qed.

(** Without a match the run prints the clean message and returns. *)
Lemma run_clean rich t :
  issues_of t = [] ->
  run_prints rich (report t) []
  = mkRun [mkPrinted (Line clean_message) (Some "bold green"%string)] Returned.
Proof.
  intros H. rewrite report_clean by exact H. cbn [run_prints].
  unfold print_raises. cbn [p_what].
  rewrite no_open_never_raises by reflexivity. reflexivity.
Qed.

(** With a match and a table the console library accepts, the run prints
    the table and the summary line and returns. *)
Lemma run_findings rich t :
  issues_of t <> [] ->
  table_raises rich (findings_table t) = false ->
  run_prints rich (report t) [] = mkRun (report t) Returned.
Proof.
  intros H Hr. rewrite report_findings by exact H. cbn [run_prints].
  unfold print_raises at 1. cbn [p_what]. rewrite Hr.
  rewrite summary_never_raises. reflexivity.
Qed.

(** With a match and a table the console library rejects, nothing is
    printed and the exception ends the run. *)
Lemma run_markup_error rich t :
  issues_of t <> [] ->
  table_raises rich (findings_table t) = true ->
  run_prints rich (report t) [] = mkRun [] (Uncaught MarkupError).
Proof.
  intros H Hr. rewrite report_findings by exact H. cbn [run_prints].
  unfold print_raises at 1. cbn [p_what]. rewrite Hr. reflexivity.
Qed.

(** * The claims *)

(** ** C1: an unbracketed number-and-unit phrase *)

(** C1 does not hold as stated: the text "1500 bytes ]" holds the number 1500,
    a space and the unit "bytes", and no opening bracket at all, so the phrase
    is not enclosed in brackets; yet neither search reports anything, because
    a closing bracket follows the phrase. *)
Lemma unbracketed_phrase_not_flagged :
  str "1500 bytes ]" = str "1500" ++ str " " ++ str "bytes" ++ str " ]"
  /\ number_run (str "1500") = true
  /\ In (str "bytes") plain_units
  /\ (forall c, In c (str "1500 bytes ]") -> c <> "["%char)
  /\ find_suspect_numbers (str "1500 bytes ]") = []
  /\ issues_of (str "1500 bytes ]") = [].
Proof.
  repeat split; try reflexivity.
  - simpl. tauto.
  - intros c Hc. simpl in Hc.
    repeat (destruct Hc as [<-|Hc]; [discriminate|]). contradiction.
Qed.

(** C1, amended.  Let the text be [pre ++ d ++ s ++ u ++ post] where [d] is
    a digit followed by digits and commas, [s] is empty or one white-space
    character, [u] is one of the unit words bytes, byte, B, KB, MB, GB, ms,
    s, row, duplicate or "line", optional white space and digits, read in
    full, [pre] does not end with an opening bracket, in [post] no closing
    bracket comes before an opening one, and no match of Rule 1 that starts
    before the phrase runs into it.  Then Rule 1 reports exactly one match on
    the phrase: the match that spans [d ++ s ++ u] exactly is among its
    matches, and every other match ends before the phrase or starts after
    it. *)
Theorem rule1_flags_phrase (pre d s u post : text) :
  ~ ends_with_open pre ->
  number_run d = true ->
  opt_space s = true ->
  unit_here u post ->
  ~ closed_before_open post ->
  (forall m, In m (find_suspect_numbers (pre ++ d ++ s ++ u ++ post)) ->
     m_start m < length pre -> m_end m <= length pre) ->
  In (mkMatch (length pre) (length pre + length (d ++ s ++ u)) (d ++ s ++ u))
     (find_suspect_numbers (pre ++ d ++ s ++ u ++ post))
  /\ forall m, In m (find_suspect_numbers (pre ++ d ++ s ++ u ++ post)) ->
       m = mkMatch (length pre) (length pre + length (d ++ s ++ u)) (d ++ s ++ u)
       \/ m_end m <= length pre
       \/ length pre + length (d ++ s ++ u) <= m_start m.
Proof.
  intros Hopen Hd Hs Hu Hpost Hfree.
  assert (Hc : closes post = false).
  { destruct (closes post) eqn:E; [|reflexivity].
    exfalso. apply Hpost, closes_iff. exact E. }
  apply not_after_open_rev in Hopen.
  pose proof (rule1_match_here (rev pre) d s u post Hopen Hd Hs Hu Hc) as Hm.
  assert (Hin : In (mkMatch (length pre) (length pre + length (d ++ s ++ u)) (d ++ s ++ u))
                   (find_suspect_numbers (pre ++ d ++ s ++ u ++ post))).
  { unfold find_suspect_numbers, finditer in *.
    rewrite <- (app_nil_r (rev pre)) in Hm.
    pose proof (scan_finds suspect_numbers_pattern pre 0 [] (d ++ s ++ u ++ post) _ _
                  (Nat.le_0_l _) Hm Hfree) as H.
    match type of H with
    | In ?found _ =>
        assert (E : found
                    = mkMatch (length pre) (length pre + length (d ++ s ++ u))
                              (d ++ s ++ u))
    end.
    { rewrite app_nil_r, length_app, !length_rev. cbn [length Nat.add].
      replace (length (d ++ s ++ u) + length pre - length pre)
        with (length (d ++ s ++ u)) by lia.
      replace (d ++ s ++ u ++ post) with ((d ++ s ++ u) ++ post)
        by (rewrite <- !app_assoc; reflexivity).
      rewrite firstn_app, firstn_all, Nat.sub_diag. cbn [firstn].
      rewrite app_nil_r. f_equal. lia. }
    rewrite E in H.
    exact H. }
  split; [exact Hin|].
  intros m Hm'.
  destruct (in_order_pair _ _ _ (scan_in_order suspect_numbers_pattern _ 0 []) Hm' Hin)
    as [->|[[H _]|[H _]]]; [auto|simpl in H; auto|simpl in H; auto].
Qed.

(** C1 on "In 2024 we processed 1500 bytes total": digits come before the
    phrase, and the match is "1500 bytes". *)
Lemma rule1_flags_phrase_witness :
  In (mkMatch 21 31 (str "1500 bytes"))
     (find_suspect_numbers (str "In 2024 we processed " ++ str "1500" ++ str " "
                              ++ str "bytes" ++ str " total"))
  /\ forall m, In m (find_suspect_numbers (str "In 2024 we processed " ++ str "1500"
                                             ++ str " " ++ str "bytes" ++ str " total")) ->
       m = mkMatch 21 31 (str "1500 bytes")
       \/ m_end m <= 21
       \/ 31 <= m_start m.
Proof.
  apply (rule1_flags_phrase (str "In 2024 we processed ") (str "1500") (str " ")
           (str "bytes") (str " total")).
  - apply not_after_open_rev. reflexivity.
  - reflexivity.
  - reflexivity.
  - apply unit_plain. simpl. tauto.
  - intros H. apply closes_iff in H. discriminate H.
  - intros m Hin. vm_compute in Hin. destruct Hin as [<-|[]]. simpl. lia.
Defined.

(** The example of C1, "Processed 1500 bytes total": one match of Rule 1,
    none of Rule 2. *)
Example scan_example_of_c1 :
  issues_of (str "Processed 1500 bytes total") = [mkMatch 10 20 (str "1500 bytes")].
Proof. vm_compute. reflexivity. Qed.

(** On that example the whole report has one row, of type "Number/Unit". *)
Example report_processed_1500_bytes :
  rows_shown (str "Processed 1500 bytes total")
  = [mkRow (str "Number/Unit") (str "1500 bytes")
           (str "Processed 1500 bytes total...")].
Proof. vm_compute. reflexivity. Qed.

(** ** C2: the bracket exemption *)

(** C2.  Every match of Rule 1 lies in the text where it says, the text
    before it does not end with an opening bracket, and in the text after it
    no closing bracket comes before an opening one.  So for a number, optional
    white space and a unit word put between brackets neither search reports
    anything; on "[1500 bytes]" the report is the clean message. *)
Theorem rule1_bracket_exemption :
  (forall t m, In m (find_suspect_numbers t) ->
     exists pre post,
       t = pre ++ m_group m ++ post
       /\ m_start m = length pre
       /\ m_end m = length pre + length (m_group m)
       /\ ~ ends_with_open pre
       /\ ~ closed_before_open post)
  /\ (forall d s u,
        forallb digit_or_comma d = true ->
        forallb Chars.is_space s = true ->
        unit_word u ->
        issues_of ("[" :: (d ++ s ++ u) ++ ["]"]) = [])
  /\ issues_of (str "[1500 bytes]") = []
  /\ report (str "[1500 bytes]")
     = [mkPrinted (Line clean_message) (Some "bold green"%string)].
Proof.
  split; [|split; [exact bracketed_phrase_clean|split; vm_compute; reflexivity]].
  intros t m Hin.
  destruct (finditer_sound _ _ _ Hin) as (pre & post & Ht & Hs & He & Hm).
  destruct (match_here_sound _ _ _ _ _ Hm) as (x & Hx & _ & D).
  apply rule1_lookarounds in D. destruct D as [Hb Hc].
  exists pre, post. split; [exact Ht|]. split; [exact Hs|]. split; [exact He|]. split.
  - apply not_after_open_rev. exact Hb.
  - intros H. apply closes_iff in H. congruence.
Qed.

(** C2 at "Processed 1500 bytes total", where the one match is not after an
    opening bracket and no closing bracket follows it, and at "[12,500 KB]". *)
Lemma rule1_bracket_exemption_witness :
  (exists pre post,
     str "Processed 1500 bytes total" = pre ++ str "1500 bytes" ++ post
     /\ 10 = length pre
     /\ 20 = length pre + length (str "1500 bytes")
     /\ ~ ends_with_open pre
     /\ ~ closed_before_open post)
  /\ issues_of ("["%char :: (str "12,500" ++ str " " ++ str "KB") ++ ["]"%char]) = [].
Proof.
  split.
  - apply (proj1 rule1_bracket_exemption (str "Processed 1500 bytes total")
             (mkMatch 10 20 (str "1500 bytes"))).
    vm_compute. left. reflexivity.
  - apply (proj1 (proj2 rule1_bracket_exemption) (str "12,500") (str " ") (str "KB")).
    + reflexivity.
    + reflexivity.
    + left. simpl. tauto.
Defined.

(** ** C3: the tokens of Rule 2 *)

(** C3.  On each of the inputs "src/main.rs:42", "foo_bar()", "unwrap()" and
    "prost::" the second search reports exactly one match, whose text is the
    whole input; neither "line" nor "row" occurs in "src/main.rs:42", and its
    row has the type "Number/Unit". *)
Theorem fake_path_tokens :
  find_fake_paths (str "src/main.rs:42") = [mkMatch 0 14 (str "src/main.rs:42")]
  /\ find_fake_paths (str "foo_bar()") = [mkMatch 0 9 (str "foo_bar()")]
  /\ find_fake_paths (str "unwrap()") = [mkMatch 0 8 (str "unwrap()")]
  /\ find_fake_paths (str "prost::") = [mkMatch 0 7 (str "prost::")]
  /\ ~ has_sub (str "line") (str "src/main.rs:42")
  /\ ~ has_sub (str "row") (str "src/main.rs:42")
  /\ rows_shown (str "src/main.rs:42")
     = [mkRow (str "Number/Unit") (str "src/main.rs:42") (str "src/main.rs:42...")].
Proof.
  repeat split; try (vm_compute; reflexivity);
    intros H; apply contains_iff in H; vm_compute in H; discriminate H.
Qed.

(** ** C4: the category of a row *)

Lemma type_of_spec m :
  (type_of m = str "Line/Reference" <-> names_line_or_row (m_group m))
  /\ (type_of m = str "Number/Unit" <-> ~ names_line_or_row (m_group m)).
Proof.
  unfold type_of, names_line_or_row.
  rewrite <- !contains_iff, <- orb_true_iff.
  destruct (contains (str "line") (m_group m) || contains (str "row") (m_group m)).
  - split; split; auto; try discriminate. intros H. exfalso. apply H. reflexivity.
  - split; split; auto; try discriminate.
Qed.

(** C4.  The rows shown are the rows of Rule 1's matches followed by the rows
    of Rule 2's matches, all built in the same way; and in every row shown the
    type is "Line/Reference" exactly when "line" or "row" occurs in the
    matched text, and "Number/Unit" exactly when neither does. *)
Theorem category_rule (t : text) :
  rows_shown t
  = map (row_of t) (find_suspect_numbers t) ++ map (row_of t) (find_fake_paths t)
  /\ forall r, In r (rows_shown t) ->
       (r_type r = str "Line/Reference" <-> names_line_or_row (r_match r))
       /\ (r_type r = str "Number/Unit" <-> ~ names_line_or_row (r_match r)).
Proof.
  rewrite rows_shown_eq. unfold issues_of. rewrite map_app. split; [reflexivity|].
  intros r Hr. rewrite <- map_app in Hr. apply in_map_iff in Hr.
  destruct Hr as (m & <- & _). apply type_of_spec.
Qed.

(** C4 on "3 line 7 and throw()": one row from each rule, both of type
    "Line/Reference". *)
Lemma category_rule_witness :
  rows_shown (str "3 line 7 and throw()")
  = map (row_of (str "3 line 7 and throw()")) (find_suspect_numbers (str "3 line 7 and throw()"))
    ++ map (row_of (str "3 line 7 and throw()")) (find_fake_paths (str "3 line 7 and throw()"))
  /\ map r_type (rows_shown (str "3 line 7 and throw()"))
     = [str "Line/Reference"; str "Line/Reference"]
  /\ names_line_or_row (str "throw()").
Proof.
  pose proof (category_rule (str "3 line 7 and throw()")) as [H1 H2].
  split; [exact H1|]. split; [vm_compute; reflexivity|].
  apply (proj1 (proj1 (H2 (mkRow (str "Line/Reference") (str "throw()")
                                 (str "3 line 7 and throw()..."))
                          ltac:(vm_compute; right; left; reflexivity)))).
  reflexivity.
Defined.

(** ** C5: the context cell *)

(** C5.  The rows shown are the rows of the matches, in order; and the context
    cell of a match is the window of the text from 30 characters before the
    start of the match to 30 characters after its end, with newlines replaced
    by spaces, stripped, cut to 120 characters, followed by "...".  So the
    part before the dots has at most 120 characters, holds no newline and
    does not start with white space, and the cell ends with the dots. *)
Theorem context_cell (t : text) :
  map r_context (rows_shown t)
  = map (fun m => firstn 120 (strip (replace_newlines (window t (m_start m) (m_end m))))
                  ++ str "...") (issues_of t)
  /\ forall m,
       let body := firstn 120 (strip (replace_newlines (window t (m_start m) (m_end m)))) in
       r_context (row_of t m) = body ++ str "..."
       /\ length body <= 120
       /\ ~ In "010"%char body
       /\ stops Chars.is_space body.
Proof.
  split.
  - rewrite rows_shown_eq, map_map. apply map_ext. intros m.
    simpl. rewrite context_window. reflexivity.
  - intros m body. subst body. split; [|split; [|split]].
    + simpl. rewrite context_window. reflexivity.
    + rewrite length_firstn. lia.
    + intros H. apply in_firstn, in_strip in H.
      exact (replace_newlines_none _ H).
    + destruct (strip_spec (replace_newlines (window t (m_start m) (m_end m))))
        as (_ & _ & _ & _ & _ & H & _).
      destruct (strip _) as [|c l]; [exact I|exact H].
Qed.

(** A match long enough for the cut to matter: 130 digits and " MB". *)
Example context_cell_is_cut :
  let t := repeat "7"%char 130 ++ str " MB" in
  issues_of t = [mkMatch 0 133 t]
  /\ map r_context (rows_shown t) = [repeat "7"%char 120 ++ str "..."].
Proof. vm_compute. split; reflexivity. Qed.

(** ** C6: the clean report *)

(** C6.  When the file loads and neither search finds a match, the run prints
    one thing only, the line [clean_message] in bold green (no table, no
    summary line), and the script runs to its end, whatever markup the
    console library rejects. *)
Theorem clean_report (rich : markup) (fs : filesystem) (prog path : string) (t : text) :
  fs path = inr t ->
  find_suspect_numbers t = [] ->
  find_fake_paths t = [] ->
  script rich fs [prog; path]
  = mkRun [mkPrinted (Line clean_message) (Some "bold green"%string)] Returned.
Proof.
  intros Hfs H1 H2. unfold script, main, load_file. simpl negb. cbn [nth]. rewrite Hfs.
  apply run_clean. unfold issues_of. rewrite H1, H2. reflexivity.
Qed.

(** C6 on a file that holds "42 widgets", with a console library that
    rejects every string with a "[". *)
Lemma clean_report_witness :
  script (fun _ => true) (fun _ => inr (str "42 widgets")) ["audit.py"; "notes.md"]%string
  = mkRun [mkPrinted (Line clean_message) (Some "bold green"%string)] Returned.
Proof.
  apply (clean_report (fun _ => true) (fun _ => inr (str "42 widgets")) "audit.py" "notes.md"
           (str "42 widgets")); reflexivity.
Defined.

(** ** C7: exit codes and the usage message *)

Lemma report_no_usage t : ~ In usage_line (report t).
Proof.
  unfold report. destruct (issues_of t) as [|m l]; simpl.
  - intros [H|[]]. discriminate H.
  - intros [H|[H|[]]]; discriminate H.
Qed.

(** After a load the run is one of three. *)
Lemma run_after_load rich t :
  (issues_of t = []
   /\ run_prints rich (report t) [] = mkRun (report t) Returned)
  \/ (issues_of t <> [] /\ table_raises rich (findings_table t) = false
      /\ run_prints rich (report t) [] = mkRun (report t) Returned)
  \/ (issues_of t <> [] /\ table_raises rich (findings_table t) = true
      /\ run_prints rich (report t) [] = mkRun [] (Uncaught MarkupError)).
Proof.
  destruct (issues_of t) as [|m l] eqn:E.
  - left. split; [reflexivity|]. rewrite run_clean by exact E.
    rewrite report_clean by exact E. reflexivity.
  - right. assert (Hne : issues_of t <> []) by congruence. rewrite <- E.
    destruct (table_raises rich (findings_table t)) eqn:Hr.
    + right. split; [exact Hne|]. split; [reflexivity|].
      apply run_markup_error; assumption.
    + left. split; [exact Hne|]. split; [reflexivity|].
      apply run_findings; assumption.
Qed.

(** C7 does not hold as stated: with exactly one path argument, naming a file
    that does not exist, the process exits with code 1, and prints no usage
    message. *)
Lemma load_failure_exit_code :
  length ["audit.py"; "missing.md"]%string = 2
  /\ exit_code (script (fun _ => false) (fun _ => inl FileNotFoundError)
                  ["audit.py"; "missing.md"]%string) = 1%Z
  /\ console (script (fun _ => false) (fun _ => inl FileNotFoundError)
                ["audit.py"; "missing.md"]%string) = [].
Proof. repeat split. Qed.

(** C7, amended.  After a run that printed its report, the clean message or
    the table and the summary line, the exit code is 0; the report is printed
    whenever the file loads and the console library accepts the table.  With
    an argument count other than one path the script prints the usage message
    and nothing else and exits with code 1.  With exactly one path the usage
    message is never printed.  The exit code is other than 0 only with a
    wrong argument count or, with one path, when loading the file failed or
    when the console library rejected the table of the findings. *)
Theorem exit_codes (rich : markup) (fs : filesystem) (argv : list string) :
  (forall t, length argv = 2 -> fs (nth 1 argv EmptyString) = inr t ->
     issues_of t = [] \/ table_raises rich (findings_table t) = false ->
     script rich fs argv = mkRun (report t) Returned
     /\ exit_code (script rich fs argv) = 0%Z)
  /\ (length argv <> 2 ->
        script rich fs argv = mkRun [usage_line] (SysExit 1)
        /\ exit_code (script rich fs argv) = 1%Z)
  /\ (length argv = 2 -> ~ In usage_line (console (script rich fs argv)))
  /\ (exit_code (script rich fs argv) <> 0%Z ->
        length argv <> 2
        \/ (length argv = 2 /\ exists e, fs (nth 1 argv EmptyString) = inl e)
        \/ (length argv = 2
            /\ exists t, fs (nth 1 argv EmptyString) = inr t
                 /\ issues_of t <> []
                 /\ table_raises rich (findings_table t) = true)).
Proof.
  unfold script, main, load_file.
  destruct (Nat.eqb_spec (length argv) 2) as [E|E]; cbn [negb].
  - split; [|split; [|split]].
    + intros t _ Hfs Hok. rewrite Hfs.
      destruct (run_after_load rich t) as [(_ & ->)|[(_ & _ & ->)|(Hne & Hr & _)]];
        try (split; reflexivity).
      destruct Hok; congruence.
    + congruence.
    + intros _. destruct (fs (nth 1 argv EmptyString)) as [e|t]; [simpl; tauto|].
      destruct (run_after_load rich t) as [(_ & ->)|[(_ & _ & ->)|(_ & _ & ->)]];
        cbn [console]; try apply report_no_usage. simpl. tauto.
    + intros H. right.
      destruct (fs (nth 1 argv EmptyString)) as [e|t]; [left; eauto|].
      right. split; [exact E|]. exists t. split; [reflexivity|].
      destruct (run_after_load rich t) as [(_ & Hrun)|[(_ & _ & Hrun)|(Hne & Hr & _)]];
        [rewrite Hrun in H; exfalso; apply H; reflexivity
        |rewrite Hrun in H; exfalso; apply H; reflexivity
        |auto].
  - split; [|split; [|split]].
    + intros t Hl. congruence.
    + intros _. split; reflexivity.
    + congruence.
    + intros _. left. exact E.
Qed.

(** C7 at four runs: a file with a finding that prints, no argument, a
    missing file, and a file whose context cell the console library
    rejects. *)
Lemma exit_codes_witness :
  exit_code (script (rejects (str "[/b]")) (fun _ => inr (str "5 rows"))
               ["audit.py"; "notes.md"]%string) = 0%Z
  /\ script (rejects (str "[/b]")) (fun _ => inr (str "5 rows")) ["audit.py"]%string
     = mkRun [usage_line] (SysExit 1)
  /\ (length ["audit.py"; "missing.md"]%string <> 2
      \/ (length ["audit.py"; "missing.md"]%string = 2
          /\ exists e, (fun _ : string => @inl exn text FileNotFoundError)
                         (nth 1 ["audit.py"; "missing.md"]%string EmptyString) = inl e)
      \/ (length ["audit.py"; "missing.md"]%string = 2
          /\ exists t, (fun _ : string => @inl exn text FileNotFoundError)
                         (nth 1 ["audit.py"; "missing.md"]%string EmptyString) = inr t
               /\ issues_of t <> []
               /\ table_raises (rejects (str "[/b]")) (findings_table t) = true))
  /\ (length ["audit.py"; "notes.md"]%string <> 2
      \/ (length ["audit.py"; "notes.md"]%string = 2
          /\ exists e, (fun _ : string => @inr exn text (str "5 bytes [/b] x"))
                         (nth 1 ["audit.py"; "notes.md"]%string EmptyString) = inl e)
      \/ (length ["audit.py"; "notes.md"]%string = 2
          /\ exists t, (fun _ : string => @inr exn text (str "5 bytes [/b] x"))
                         (nth 1 ["audit.py"; "notes.md"]%string EmptyString) = inr t
               /\ issues_of t <> []
               /\ table_raises (rejects (str "[/b]")) (findings_table t) = true)).
Proof.
  split; [|split; [|split]].
  - apply (proj1 (exit_codes (rejects (str "[/b]")) (fun _ => inr (str "5 rows"))
                    ["audit.py"; "notes.md"]%string) (str "5 rows")).
    + reflexivity.
    + reflexivity.
    + right. vm_compute. reflexivity.
  - apply (proj1 (proj2 (exit_codes (rejects (str "[/b]")) (fun _ => inr (str "5 rows"))
                           ["audit.py"]%string))).
    discriminate.
  - apply (proj2 (proj2 (proj2 (exit_codes (rejects (str "[/b]"))
                                  (fun _ => inl FileNotFoundError)
                                  ["audit.py"; "missing.md"]%string)))).
    discriminate.
  - apply (proj2 (proj2 (proj2 (exit_codes (rejects (str "[/b]"))
                                  (fun _ => inr (str "5 bytes [/b] x"))
                                  ["audit.py"; "notes.md"]%string)))).
    vm_compute. discriminate.
Defined.

(** With a console library that rejects "[/b]", the file "5 bytes [/b] x"
    loads, its one match is found, and the run ends in the table print:
    nothing is printed, the exit code is 1. *)
Example rejected_table_ends_the_run :
  issues_of (str "5 bytes [/b] x") = [mkMatch 0 7 (str "5 bytes")]
  /\ script (rejects (str "[/b]")) (fun _ => inr (str "5 bytes [/b] x"))
       ["audit.py"; "notes.md"]%string
     = mkRun [] (Uncaught MarkupError)
  /\ exit_code (script (rejects (str "[/b]")) (fun _ => inr (str "5 bytes [/b] x"))
                  ["audit.py"; "notes.md"]%string) = 1%Z.
Proof. vm_compute. repeat split; reflexivity. Qed.

(** ** C8: a file that cannot be loaded *)

(** C8.  With one path argument, when loading the file raises an exception,
    nothing is scanned or printed, the exception reaches the top level as it
    is, and the exit code is not 0. *)
Theorem load_failure_propagates
    (rich : markup) (fs : filesystem) (prog path : string) (e : exn) :
  fs path = inl e ->
  script rich fs [prog; path] = mkRun [] (Uncaught e)
  /\ exit_code (script rich fs [prog; path]) <> 0%Z.
Proof.
  unfold script, main, load_file. simpl. intros ->.
  split; [reflexivity|]. simpl. discriminate.
Qed.

(** C8 on a missing file, an unreadable file and a file that is not text. *)
Lemma load_failure_propagates_witness :
  script (fun _ => false) (fun _ => inl FileNotFoundError) ["audit.py"; "missing.md"]%string
  = mkRun [] (Uncaught FileNotFoundError)
  /\ script (fun _ => false) (fun _ => inl PermissionError) ["audit.py"; "secret.md"]%string
     = mkRun [] (Uncaught PermissionError)
  /\ script (fun _ => false) (fun _ => inl UnicodeDecodeError) ["audit.py"; "image.png"]%string
     = mkRun [] (Uncaught UnicodeDecodeError).
Proof.
  split; [|split].
  - apply (load_failure_propagates (fun _ => false) (fun _ => inl FileNotFoundError)
             "audit.py" "missing.md" FileNotFoundError eq_refl).
  - apply (load_failure_propagates (fun _ => false) (fun _ => inl PermissionError)
             "audit.py" "secret.md" PermissionError eq_refl).
  - apply (load_failure_propagates (fun _ => false) (fun _ => inl UnicodeDecodeError)
             "audit.py" "image.png" UnicodeDecodeError eq_refl).
Defined.

(** ** C9: the bare "s" unit *)

(** C9.  A number followed by a space and a word that begins with "s",
    whatever the rest of the word.  Where the bracket exemption does not apply
    (no opening bracket just before the number, no closing bracket first in
    what follows), the pattern of Rule 1 matches at the number, and the match
    is the number, the space and the single letter "s"; when no digit comes
    before the number, that match is the first one the search reports. *)
Theorem bare_s_unit (pre d rest : text) :
  ~ ends_with_open pre ->
  number_run d = true ->
  ~ closed_before_open rest ->
  match_here suspect_numbers_pattern (rev pre) (d ++ str " s" ++ rest)
  = Some (rev (d ++ str " s") ++ rev pre, rest)
  /\ (no_digit pre = true ->
      exists more_matches,
        find_suspect_numbers (pre ++ d ++ str " s" ++ rest)
        = mkMatch (length pre) (length pre + length d + 2) (d ++ str " s")
            :: more_matches).
Proof.
  intros Hopen Hd Hrest.
  assert (Hu : unit_here (str "s") rest) by (apply unit_plain; simpl; tauto).
  split.
  - assert (Hc : closes rest = false).
    { destruct (closes rest) eqn:E; [|reflexivity].
      exfalso. apply Hrest, closes_iff. exact E. }
    apply not_after_open_rev in Hopen.
    pose proof (rule1_match_here (rev pre) d (str " ") (str "s") rest
                  Hopen Hd eq_refl Hu Hc) as H.
    exact H.
  - intros Hpre.
    pose proof (rule1_phrase_found pre d (str " ") (str "s") rest
                  Hpre Hopen Hd eq_refl Hu Hrest) as H.
    rewrite length_app in H. simpl in H.
    replace (length pre + length d + 2) with (length pre + (length d + 2)) by lia.
    eexists. exact H.
Qed.

(** The example of C9: in "took 10 seconds here" the match is "10 s". *)
Lemma bare_s_unit_witness :
  match_here suspect_numbers_pattern (rev (str "took "))
    (str "10" ++ str " s" ++ str "econds here")
  = Some (rev (str "10" ++ str " s") ++ rev (str "took "), str "econds here")
  /\ exists more_matches,
       find_suspect_numbers (str "took " ++ str "10" ++ str " s" ++ str "econds here")
       = mkMatch 5 9 (str "10 s") :: more_matches.
Proof.
  assert (H1 : ~ ends_with_open (str "took "))
    by (apply not_after_open_rev; reflexivity).
  assert (H2 : ~ closed_before_open (str "econds here"))
    by (intros H; apply closes_iff in H; discriminate H).
  split.
  - apply (proj1 (bare_s_unit (str "took ") (str "10") (str "econds here")
                    H1 eq_refl H2)).
  - apply (proj2 (bare_s_unit (str "took ") (str "10") (str "econds here")
                    H1 eq_refl H2)).
    reflexivity.
Defined.

(** On that example it is the only match of either search. *)
Example scan_took_10_seconds :
  issues_of (str "took 10 seconds here") = [mkMatch 5 9 (str "10 s")].
Proof. vm_compute. reflexivity. Qed.

(** ** C10: the "rows" alternative *)

(** C10.  On every text Rule 1 finds the same matches as the pattern without
    its "rows" alternative; a match of Rule 1 in which "row" occurs is a run
    of digits, commas and white space followed by "row", so it ends with
    "row"; and on "5 rows" the one match of the two searches is "5 row", with
    the type "Line/Reference". *)
Theorem rows_alternative_unreachable :
  (forall t, find_suspect_numbers t = finditer suspect_numbers_without_rows t)
  /\ (forall t m, In m (find_suspect_numbers t) ->
        has_sub (str "row") (m_group m) ->
        exists n, m_group m = n ++ str "row" /\ forallb number_or_space n = true)
  /\ issues_of (str "5 rows") = [mkMatch 0 5 (str "5 row")]
  /\ rows_shown (str "5 rows")
     = [mkRow (str "Line/Reference") (str "5 row") (str "5 rows...")].
Proof.
  split; [|split; [|split; vm_compute; reflexivity]].
  - intros t. unfold find_suspect_numbers, finditer.
    apply scan_ext. apply rule1_rows_dead.
  - intros t m Hin Hsub. apply contains_iff in Hsub.
    apply (rule1_row_at_end t m Hin Hsub).
Qed.

(** C10 on "5 rows": both patterns find the same match, and it ends with
    "row". *)
Lemma rows_alternative_unreachable_witness :
  find_suspect_numbers (str "5 rows")
  = finditer suspect_numbers_without_rows (str "5 rows")
  /\ exists n, str "5 row" = n ++ str "row" /\ forallb number_or_space n = true.
Proof.
  split.
  - apply (proj1 rows_alternative_unreachable (str "5 rows")).
  - apply (proj1 (proj2 rows_alternative_unreachable) (str "5 rows")
             (mkMatch 0 5 (str "5 row"))).
    + vm_compute. left. reflexivity.
    + exists (str "5 "), []. reflexivity.
Defined.

(** * Further properties of the script *)

(** ** The matches of one search, one after the other *)

(** X1.  The matches of each search come in text order and do not overlap:
    of two matches of the same rule, the earlier one ends where the later one
    starts, or before it. *)
Theorem matches_in_order (t : text) :
  in_order (find_suspect_numbers t) /\ in_order (find_fake_paths t).
Proof.
  split; apply scan_in_order.
Qed.

(** ** A match is an excerpt of the text *)

Lemma match_located (t : text) (m : MatchObj) :
  In m (issues_of t) ->
  exists pre post,
    t = pre ++ m_group m ++ post
    /\ m_start m = length pre
    /\ m_end m = length pre + length (m_group m).
Proof.
  unfold issues_of. rewrite in_app_iff.
  intros [H|H];
    destruct (finditer_sound _ _ _ H) as (pre & post & Ht & Hs & He & _);
    exists pre, post; auto.
Qed.

(** X2.  Every match reported, by either rule, is a piece of the text that is
    not empty: the text is what comes before the match, the matched text and
    what comes after it, the start is the length of the first part, and the
    end is inside the text. *)
Theorem match_is_excerpt (t : text) (m : MatchObj) :
  In m (issues_of t) ->
  exists pre post,
    t = pre ++ m_group m ++ post
    /\ m_start m = length pre
    /\ m_end m = length pre + length (m_group m)
    /\ m_start m < m_end m
    /\ m_end m <= length t.
Proof.
  intros H. pose proof (matches_not_empty _ _ H) as Hlt.
  destruct (match_located _ _ H) as (pre & post & Ht & Hs & He).
  exists pre, post. repeat split; auto.
  rewrite He, Ht, !length_app. lia.
Qed.

(** X2 on "took 10 seconds here". *)
Lemma match_is_excerpt_witness :
  exists pre post,
    str "took 10 seconds here" = pre ++ str "10 s" ++ post
    /\ 5 = length pre
    /\ 9 = length pre + length (str "10 s")
    /\ 5 < 9
    /\ 9 <= length (str "took 10 seconds here").
Proof.
  apply (match_is_excerpt (str "took 10 seconds here") (mkMatch 5 9 (str "10 s"))).
  vm_compute. left. reflexivity.
Defined.

(** ** The window around a match *)

Lemma window_split (pre g post : text) :
  window (pre ++ g ++ post) (length pre) (length pre + length g)
  = skipn (length pre - 30) pre ++ g ++ firstn 30 post.
Proof.
  unfold window.
  rewrite skipn_app.
  replace (length pre - 30 - length pre) with 0 by lia. simpl skipn at 2.
  set (before := skipn (length pre - 30) pre).
  assert (Hb : length before = length pre - (length pre - 30))
    by (unfold before; apply length_skipn).
  rewrite !length_app.
  replace (Nat.min (length pre + (length g + length post)) (length pre + length g + 30)
           - (length pre - 30))
    with (length before + (length g + Nat.min 30 (length post))) by lia.
  rewrite firstn_app_2, firstn_app_2. f_equal. f_equal.
  destruct (Nat.le_ge_cases 30 (length post)) as [H|H].
  - rewrite Nat.min_l by exact H. reflexivity.
  - rewrite Nat.min_r by exact H. rewrite !firstn_all2 by lia. reflexivity.
Qed.

(** X3.  The window of a match holds the matched text as it stands in the
    file, after the 30 characters before it (or all of them when there are
    fewer) and before the 30 characters after it (or all of them). *)
Theorem window_around_match (t : text) (m : MatchObj) :
  In m (issues_of t) ->
  exists before after,
    window t (m_start m) (m_end m) = before ++ m_group m ++ after
    /\ length before = Nat.min 30 (m_start m)
    /\ length after = Nat.min 30 (length t - m_end m)
    /\ firstn (m_start m) t = firstn (m_start m - 30) t ++ before
    /\ skipn (m_end m) t = after ++ skipn (m_end m + 30) t.
Proof.
  intros H. destruct (match_located _ _ H) as (pre & post & Ht & Hs & He).
  exists (skipn (length pre - 30) pre), (firstn 30 post).
  rewrite Hs, He. rewrite Ht at 1. rewrite window_split.
  split; [reflexivity|]. split; [rewrite length_skipn; lia|]. split; [|split].
  - rewrite length_firstn. rewrite Ht at 1. rewrite !length_app. lia.
  - rewrite Ht. rewrite !firstn_app.
    replace (length pre - length pre) with 0 by lia.
    replace (length pre - 30 - length pre) with 0 by lia.
    rewrite firstn_all. simpl. rewrite !app_nil_r. symmetry. apply firstn_skipn.
  - rewrite Ht. rewrite app_assoc.
    assert (Hx : length (pre ++ m_group m) = length pre + length (m_group m))
      by apply length_app.
    set (x := pre ++ m_group m) in *. rewrite <- Hx.
    rewrite !skipn_app.
    replace (length x - length x) with 0 by lia.
    replace (length x + 30 - length x) with 30 by lia.
    rewrite (skipn_all2 x (n := length x)) by lia.
    rewrite (skipn_all2 x (n := length x + 30)) by lia.
    change (skipn 0 post) with post. cbn [app].
    symmetry. apply firstn_skipn.
Qed.

(** X3 on "Processed 1500 bytes total". *)
Lemma window_around_match_witness :
  exists before after,
    window (str "Processed 1500 bytes total") 10 20 = before ++ str "1500 bytes" ++ after
    /\ length before = Nat.min 30 10
    /\ length after = Nat.min 30 (length (str "Processed 1500 bytes total") - 20)
    /\ firstn 10 (str "Processed 1500 bytes total")
       = firstn (10 - 30) (str "Processed 1500 bytes total") ++ before
    /\ skipn 20 (str "Processed 1500 bytes total")
       = after ++ skipn (20 + 30) (str "Processed 1500 bytes total").
Proof.
  apply (window_around_match (str "Processed 1500 bytes total")
           (mkMatch 10 20 (str "1500 bytes"))).
  vm_compute. left. reflexivity.
Defined.

(** ** Matches of at most 60 characters are shown whole *)

Lemma strip_length t : length (strip t) <= length t.
Proof.
  destruct (strip_spec t) as (l & r & Ht & _).
  rewrite Ht at 2. rewrite !length_app. lia.
Qed.

(** X4.  For a match of at most 60 characters the cut to 120 characters
    removes nothing: the context cell is the whole window, with newlines
    replaced and white space stripped at both ends, followed by "...". *)
Theorem short_match_not_cut (t : text) (m : MatchObj) :
  In m (issues_of t) ->
  length (m_group m) <= 60 ->
  r_context (row_of t m)
  = strip (replace_newlines (window t (m_start m) (m_end m))) ++ str "...".
Proof.
  intros H Hlen.
  destruct (match_located _ _ H) as (pre & post & Ht & Hs & He).
  unfold row_of. cbn [r_context]. rewrite context_window. f_equal.
  apply firstn_all2.
  eapply Nat.le_trans; [apply strip_length|].
  unfold replace_newlines. rewrite length_map.
  rewrite Hs, He. rewrite Ht at 1. rewrite window_split.
  rewrite !length_app, length_skipn, length_firstn. lia.
Qed.

(** X4 on "Processed 1500 bytes total". *)
Lemma short_match_not_cut_witness :
  r_context (row_of (str "Processed 1500 bytes total") (mkMatch 10 20 (str "1500 bytes")))
  = strip (replace_newlines (window (str "Processed 1500 bytes total") 10 20)) ++ str "...".
Proof.
  apply (short_match_not_cut (str "Processed 1500 bytes total")
           (mkMatch 10 20 (str "1500 bytes"))).
  - vm_compute. left. reflexivity.
  - vm_compute. repeat constructor.
Defined.

(** ** The report with findings *)

Lemma leading_digits_of_uint d rest :
  leading_digits (NilEmpty.string_of_uint d ++ String " " rest)%string
  = NilEmpty.string_of_uint d.
Proof.
  induction d; simpl; rewrite ?IHd; reflexivity.
Qed.

Lemma count_read_summary n : count_read (summary n) = Some n.
Proof.
  unfold count_read, summary, decimal. cbn [drop append].
  rewrite leading_digits_of_uint, NilEmpty.usu. simpl.
  rewrite DecimalNat.Unsigned.of_to. reflexivity.
Qed.

(** X5.  When the file loads, a search finds something and the console
    library accepts the table, [main] prints two things and no more, and
    returns: the table without a style, titled, with the columns Type, Match
    and Context and one row for each match, Rule 1's matches before Rule 2's,
    and then the summary line in bold red; the number read from the summary
    line is the number of rows of the table, and it is at least 1. *)
Theorem summary_counts_rows (rich : markup) (fs : filesystem) (path : string) (t : text) :
  fs path = inr t ->
  issues_of t <> [] ->
  table_raises rich (findings_table t) = false ->
  exists tb line,
    main rich fs path
    = mkRun [mkPrinted (Grid tb) None; mkPrinted (Line line) (Some "bold red"%string)]
            Returned
    /\ t_title tb = table_title
    /\ t_columns tb = ["Type"; "Match"; "Context"]%string
    /\ map r_match (t_rows tb)
       = map m_group (find_suspect_numbers t) ++ map m_group (find_fake_paths t)
    /\ count_read line = Some (length (t_rows tb))
    /\ 1 <= length (t_rows tb).
Proof.
  intros Hfs H Hok. exists (findings_table t), (summary (length (issues_of t))).
  split.
  - unfold main, load_file. rewrite Hfs, run_findings by assumption.
    rewrite report_findings by exact H. reflexivity.
  - split; [reflexivity|]. split; [reflexivity|].
    unfold findings_table. cbn [t_rows]. rewrite length_map. split; [|split].
    + rewrite map_map. unfold issues_of. rewrite map_app. reflexivity.
    + apply count_read_summary.
    + destruct (issues_of t); [congruence|simpl; lia].
Qed.

(** X5 on "3 line 7 and throw()", where each rule finds one match, with a
    console library that rejects "[/b]". *)
Lemma summary_counts_rows_witness :
  exists tb line,
    main (rejects (str "[/b]")) (fun _ => inr (str "3 line 7 and throw()")) "notes.md"
    = mkRun [mkPrinted (Grid tb) None; mkPrinted (Line line) (Some "bold red"%string)]
            Returned
    /\ t_title tb = table_title
    /\ t_columns tb = ["Type"; "Match"; "Context"]%string
    /\ map r_match (t_rows tb)
       = map m_group (find_suspect_numbers (str "3 line 7 and throw()"))
         ++ map m_group (find_fake_paths (str "3 line 7 and throw()"))
    /\ count_read line = Some (length (t_rows tb))
    /\ 1 <= length (t_rows tb).
Proof.
  apply (summary_counts_rows (rejects (str "[/b]"))
           (fun _ => inr (str "3 line 7 and throw()")) "notes.md"
           (str "3 line 7 and throw()")).
  - reflexivity.
  - vm_compute. discriminate.
  - vm_compute. reflexivity.
Defined.

(** ** Clean, findings, or nothing *)

(** X6.  Once the file is loaded, what [main] leaves on the console is one of
    three things.  The clean message, exactly when neither search finds a
    match.  The table and the summary line, exactly when a search finds a
    match and the console library accepts the table.  Nothing at all, the run
    ending with [MarkupError], exactly when a search finds a match and the
    console library rejects the table.  The clean message and a table never
    come together. *)
Theorem clean_or_table (rich : markup) (fs : filesystem) (path : string) (t : text) :
  fs path = inr t ->
  (In clean_line (console (main rich fs path)) <-> issues_of t = [])
  /\ ((exists tb, In (mkPrinted (Grid tb) None) (console (main rich fs path)))
      <-> issues_of t <> [] /\ table_raises rich (findings_table t) = false)
  /\ (console (main rich fs path) = []
      <-> issues_of t <> [] /\ table_raises rich (findings_table t) = true)
  /\ (how (main rich fs path) = Uncaught MarkupError
      <-> issues_of t <> [] /\ table_raises rich (findings_table t) = true)
  /\ (how (main rich fs path) = Returned
      <-> issues_of t = [] \/ table_raises rich (findings_table t) = false).
Proof.
  intros Hfs. unfold main, load_file. rewrite Hfs.
  destruct (run_after_load rich t) as [(He & ->)|[(Hne & Hr & ->)|(Hne & Hr & ->)]];
    cbn [console how].
  - rewrite report_clean by exact He.
    split; [|split; [|split; [|split]]].
    + split; [intros _; exact He|intros _; left; reflexivity].
    + split; [intros (tb & [H|[]]); discriminate H|intros [H _]; congruence].
    + split; [discriminate|intros [H _]; congruence].
    + split; [discriminate|intros [H _]; congruence].
    + split; [intros _; left; exact He|reflexivity].
  - rewrite report_findings by exact Hne.
    split; [|split; [|split; [|split]]].
    + split; [intros [H|[H|[]]]; discriminate H|intros H; congruence].
    + split; [intros _; split; assumption|intros _; eexists; left; reflexivity].
    + split; [discriminate|intros [_ H]; congruence].
    + split; [discriminate|intros [_ H]; congruence].
    + split; [intros _; right; exact Hr|reflexivity].
  - split; [|split; [|split; [|split]]].
    + split; [intros []|intros H; congruence].
    + split; [intros (tb & [])|intros [_ H]; congruence].
    + split; [intros _; split; assumption|reflexivity].
    + split; [intros _; split; assumption|reflexivity].
    + split; [discriminate|intros [H|H]; congruence].
Qed.

(** X6 on "5 bytes [/b] x" with a console library that rejects "[/b]": a
    match, nothing printed. *)
Lemma clean_or_table_witness :
  console (main (rejects (str "[/b]")) (fun _ => inr (str "5 bytes [/b] x")) "notes.md") = []
  <-> issues_of (str "5 bytes [/b] x") <> []
      /\ table_raises (rejects (str "[/b]")) (findings_table (str "5 bytes [/b] x")) = true.
Proof.
  apply (proj1 (proj2 (proj2 (clean_or_table (rejects (str "[/b]"))
                                (fun _ => inr (str "5 bytes [/b] x")) "notes.md"
                                (str "5 bytes [/b] x") eq_refl)))).
Defined.

(** ** Text without digits and marks *)

Lemma rule1_needs_a_digit t : no_digit t = true -> find_suspect_numbers t = [].
Proof.
  intros H. unfold find_suspect_numbers, finditer.
  rewrite <- (app_nil_r t), scan_rule1_no_digit by exact H.
  simpl. rewrite rule1_needs_digit by exact I. reflexivity.
Qed.

(** X7.  A text that holds no digit and none of the characters ".", "(" and
    ":" is reported clean: Rule 1 needs a digit to start with, and every match
    of Rule 2 holds one of the three characters. *)
Theorem plain_prose_is_clean (t : text) :
  no_digit t = true ->
  existsb is_mark t = false ->
  find_suspect_numbers t = [] /\ find_fake_paths t = []
  /\ report t = [clean_line].
Proof.
  intros Hd Hm.
  pose proof (rule1_needs_a_digit t Hd) as H1.
  pose proof (rule2_needs_mark t Hm) as H2.
  split; [exact H1|]. split; [exact H2|].
  apply report_clean. unfold issues_of. rewrite H1, H2. reflexivity.
Qed.

(** X7 on a sentence of the kind. *)
Lemma plain_prose_is_clean_witness :
  find_suspect_numbers (str "The cache made it faster, we think [see notes]") = []
  /\ find_fake_paths (str "The cache made it faster, we think [see notes]") = []
  /\ report (str "The cache made it faster, we think [see notes]") = [clean_line].
Proof.
  apply (plain_prose_is_clean (str "The cache made it faster, we think [see notes]"));
    reflexivity.
Defined.


(** ** The "unwrap()" alternative of Rule 2 *)

Lemma exec_lits_none l : forall b a k,
  starts_with l a = false -> exec (lits_of l) b a k = None.
Proof.
  induction l as [|c l IH]; intros b a k H; [discriminate|].
  destruct a as [|d a]; [destruct l; reflexivity|].
  simpl in H. rewrite Ascii.eqb_sym in H.
  destruct l as [|c' l].
  - simpl. destruct (Ascii.eqb d c); [|reflexivity].
    simpl in H. discriminate.
  - change (lits_of (c :: c' :: l)) with (Seq (One (Lit c)) (lits_of (c' :: l))).
    cbn [exec atom_ok]. destruct (Ascii.eqb d c); [|reflexivity].
    apply IH. exact H.
Qed.

(** Where "unwrap()" stands, the alternative before it matches. *)
Lemma unwrap_covered b a :
  exec (Seq (plus (AnyOf [CRange "a" "z"; CChar "_"])) (lits "()")) b a accept = None ->
  exec (Seq WordB (lits "unwrap()")) b a accept = None.
Proof.
  intros H. cbn [exec].
  destruct (xorb (word_at b) (word_at a)); [|reflexivity].
  destruct (starts_with (str "unwrap()") a) eqn:S.
  - exfalso. apply starts_with_iff in S. destruct S as (v & ->).
    unfold plus in H. cbn [exec] in H.
    rewrite (rep_greedy _ (str "unwrap") 1 None b (str "()" ++ v) _
               (rev (str "unwrap()") ++ b, v)) in H.
    + discriminate.
    + reflexivity.
    + simpl. lia.
    + discriminate.
    + right. reflexivity.
    + reflexivity.
  - apply exec_lits_none. exact S.
Qed.

Lemma exec_alt r1 r2 b a k :
  exec (Alt r1 r2) b a k
  = match exec r1 b a k with
    | Some r => Some r
    | None => exec r2 b a k
    end.
Proof. reflexivity. Qed.

Lemma rule2_unwrap_dead b a :
  match_here fake_paths_pattern b a = match_here fake_paths_without_unwrap b a.
Proof.
  unfold match_here, fake_paths_pattern, fake_paths_without_unwrap.
  rewrite !exec_alt.
  destruct (exec (Seq (plus _) (Seq _ _)) b a accept) as [p|]; [reflexivity|].
  destruct (exec (Seq (plus _) (lits "()")) b a accept) as [p|] eqn:E; [reflexivity|].
  rewrite (unwrap_covered _ _ E). reflexivity.
Qed.

(** X8.  The "unwrap()" alternative of Rule 2 adds nothing: the alternative
    before it, lower-case letters and underscores followed by "()", matches
    wherever "unwrap()" stands, word boundary or not, so on every text Rule 2
    finds the same matches as the pattern without that alternative. *)
Theorem unwrap_alternative_redundant (t : text) :
  find_fake_paths t = finditer fake_paths_without_unwrap t.
Proof.
  unfold find_fake_paths, finditer. apply scan_ext. apply rule2_unwrap_dead.
Qed.

(** ** The parts of a Rule-1 match and its label *)

Lemma number_or_space_not_l c : number_or_space c = true -> negb (Ascii.eqb c "l") = true.
Proof. by_cases_on_char c. Qed.

Lemma number_run_run d : number_run d = true -> forallb digit_or_comma d = true.
Proof.
  destruct d as [|c d]; [discriminate|]. simpl. intros H.
  apply andb_true_iff in H. destruct H as [Hc Hd].
  change (digit_or_comma c && forallb digit_or_comma d = true).
  rewrite (digit_is_digit_or_comma _ Hc), Hd. reflexivity.
Qed.

Lemma opt_space_spaces s : opt_space s = true -> forallb Chars.is_space s = true.
Proof.
  destruct s as [|c [|? ?]]; try discriminate; simpl; intros H; rewrite ?H; reflexivity.
Qed.

Lemma number_and_space_chars d s :
  number_run d = true -> opt_space s = true ->
  forallb number_or_space (d ++ s) = true.
Proof.
  intros Hd Hs. rewrite forallb_app. apply andb_true_iff; split.
  - eapply forallb_impl; [|apply number_run_run; exact Hd].
    intros c H. unfold number_or_space. rewrite H. reflexivity.
  - eapply forallb_impl; [|apply opt_space_spaces; exact Hs].
    intros c H. unfold number_or_space. rewrite H. apply orb_true_r.
Qed.

Lemma units_parts b x a :
  denote units_without_rows b x a ->
  x = str "row" \/ line_phrase x \/ In x quantity_units.
Proof.
  unfold units_without_rows. cbn [denote].
  intros [H|[H|[H|[H|[H|[H|[H|[H|[H|H]]]]]]]]];
    try (apply denote_lits in H; subst x; simpl; tauto).
  - destruct H as (x1 & x2 & -> & H1 & H2 & _ & H3).
    apply denote_lits in H1. subst x1. specialize (H3 1 eq_refl).
    destruct x2 as [|c [|? ?]]; [simpl; tauto| |simpl in H3; lia].
    simpl in H2. rewrite andb_true_r in H2. apply Ascii.eqb_eq in H2. subst c.
    simpl. tauto.
  - destruct H as (x1 & x2 & -> & H1 & (ws & ds & -> & (Hws & _ & Hw1) & (Hds & Hd1 & _))).
    apply denote_lits in H1. subst x1. right. left. exists ws, ds.
    split; [reflexivity|]. split; [|split].
    + specialize (Hw1 1 eq_refl).
      destruct ws as [|c [|? ?]]; [reflexivity| |simpl in Hw1; lia].
      simpl in Hws. rewrite andb_true_r in Hws. exact Hws.
    + intros ->. simpl in Hd1. lia.
    + exact Hds.
Qed.

Lemma rule1_parts b x a :
  denote suspect_numbers_without_rows b x a ->
  exists d s u, x = d ++ s ++ u /\ number_run d = true /\ opt_space s = true
    /\ (u = str "row" \/ line_phrase u \/ In u quantity_units).
Proof.
  unfold suspect_numbers_without_rows, star, opt. cbn [denote].
  intros (x0 & x1 & -> & (-> & _) & (x2 & x3 & -> & H & (-> & _))).
  destruct H as (d1 & y1 & -> & (Hd1 & Hlo & _) & (d2 & y2 & -> & (Hd2 & _)
                  & (s & u & -> & (Hs & _ & Hs1) & Hu))).
  apply units_parts in Hu.
  exists (d1 ++ d2), s, u. simpl. rewrite app_nil_r, <- !app_assoc.
  split; [reflexivity|]. split; [|split; [|exact Hu]].
  - destruct d1 as [|c d1]; [simpl in Hlo; lia|].
    simpl in Hd1 |- *. apply andb_true_iff in Hd1. destruct Hd1 as [Hc Hd1].
    rewrite Hc, forallb_app. simpl. apply andb_true_iff; split.
    + eapply forallb_impl; [apply digit_is_digit_or_comma|exact Hd1].
    + exact Hd2.
  - specialize (Hs1 1 eq_refl).
    destruct s as [|c [|? ?]]; [reflexivity| |simpl in Hs1; lia].
    simpl in Hs. rewrite andb_true_r in Hs. exact Hs.
Qed.

Lemma rule1_match_parts t m :
  In m (find_suspect_numbers t) ->
  exists d s u, m_group m = d ++ s ++ u /\ number_run d = true /\ opt_space s = true
    /\ (u = str "row" \/ line_phrase u \/ In u quantity_units).
Proof.
  intros H. unfold find_suspect_numbers in H.
  destruct (finditer_sound _ _ _ H) as (pre & post & _ & _ & _ & Hm).
  rewrite rule1_rows_dead in Hm.
  destruct (match_here_sound _ _ _ _ _ Hm) as (x & Hx & _ & D).
  apply app_inv_tail in Hx. subst x.
  eapply rule1_parts. exact D.
Qed.

(** X9.  Every match of Rule 1 is a digit followed by digits and commas, then
    at most one white-space character, then a unit word; its row is labelled
    "Line/Reference" when the unit is "row" or "line" with its digits, and
    "Number/Unit" when it is one of bytes, byte, B, KB, MB, GB, ms, s and
    duplicate. *)
Theorem rule1_match_label (t : text) (m : MatchObj) :
  In m (find_suspect_numbers t) ->
  exists d s u,
    m_group m = d ++ s ++ u
    /\ number_run d = true
    /\ opt_space s = true
    /\ (((u = str "row" \/ line_phrase u) /\ type_of m = str "Line/Reference")
        \/ (In u quantity_units /\ type_of m = str "Number/Unit")).
Proof.
  intros H. destruct (rule1_match_parts _ _ H) as (d & s & u & Hg & Hd & Hs & Hu).
  exists d, s, u. split; [exact Hg|]. split; [exact Hd|]. split; [exact Hs|].
  pose proof (number_and_space_chars d s Hd Hs) as Hn.
  unfold type_of. rewrite Hg, app_assoc.
  change (str "line") with ("l"%char :: str "ine").
  change (str "row") with ("r"%char :: str "ow").
  rewrite !contains_skip;
    try (eapply forallb_impl; [|exact Hn]; intros c Hc;
         first [apply number_or_space_not_l; exact Hc
               |apply number_or_space_not_r; exact Hc]).
  destruct Hu as [->|[Hl|Hq]].
  - left. split; [left; reflexivity|]. reflexivity.
  - left. split; [right; exact Hl|].
    destruct Hl as (ws & ds & -> & _). reflexivity.
  - right. split; [exact Hq|]. simpl in Hq.
    repeat (destruct Hq as [<-|Hq]; [reflexivity|]). contradiction.
Qed.

(** X9 on "3 line 7 and throw()". *)
Lemma rule1_match_label_witness :
  exists d s u,
    str "3 line 7" = d ++ s ++ u
    /\ number_run d = true
    /\ opt_space s = true
    /\ (((u = str "row" \/ line_phrase u)
         /\ type_of (mkMatch 0 8 (str "3 line 7")) = str "Line/Reference")
        \/ (In u quantity_units
            /\ type_of (mkMatch 0 8 (str "3 line 7")) = str "Number/Unit")).
Proof.
  apply (rule1_match_label (str "3 line 7 and throw()") (mkMatch 0 8 (str "3 line 7"))).
  vm_compute. left. reflexivity.
Defined.

(** ** The three forms of a Rule-2 match *)

Lemma rule2_forms b g a :
  denote fake_paths_pattern b g a ->
  (exists p ds, g = p ++ str ".rs:" ++ ds
     /\ p <> [] /\ forallb path_char p = true
     /\ ds <> [] /\ forallb Chars.is_decimal ds = true)
  \/ (exists id, g = id ++ str "()" /\ id <> [] /\ forallb ident_char id = true)
  \/ (g = str "prost::" /\ word_at b = false).
Proof.
  unfold fake_paths_pattern, plus. cbn [denote].
  intros [H|[H|[H|H]]].
  - left. destruct H as (p & x2 & -> & (Hp & Hp1 & _) & (y1 & ds & -> & H & (Hds & Hd1 & _))).
    apply denote_lits in H. subst y1. exists p, ds.
    split; [reflexivity|]. split; [intros ->; simpl in Hp1; lia|].
    split; [exact Hp|]. split; [intros ->; simpl in Hd1; lia|exact Hds].
  - right. left. destruct H as (id & x2 & -> & (Hi & Hi1 & _) & H).
    apply denote_lits in H. subst x2. exists id.
    split; [reflexivity|]. split; [intros ->; simpl in Hi1; lia|exact Hi].
  - right. left. destruct H as (x1 & x2 & -> & (-> & _) & H).
    apply denote_lits in H. subst x2. exists (str "unwrap").
    split; [reflexivity|]. split; [discriminate|reflexivity].
  - right. right. destruct H as (x1 & x2 & -> & (-> & Hw) & H).
    apply denote_lits in H. subst x2. split; [reflexivity|].
    simpl in Hw. destruct (word_at b); [discriminate|reflexivity].
Qed.

(** X10.  Every match of Rule 2 has one of three forms: letters, digits,
    underscores and slashes, then ".rs:" and digits; or lower-case letters
    and underscores, then "()"; or "prost::", and then the character before
    it, if any, is not a word character. *)
Theorem rule2_match_form (t : text) (m : MatchObj) :
  In m (find_fake_paths t) ->
  exists pre post,
    t = pre ++ m_group m ++ post
    /\ m_start m = length pre
    /\ ((exists p ds, m_group m = p ++ str ".rs:" ++ ds
           /\ p <> [] /\ forallb path_char p = true
           /\ ds <> [] /\ forallb Chars.is_decimal ds = true)
        \/ (exists id, m_group m = id ++ str "()"
              /\ id <> [] /\ forallb ident_char id = true)
        \/ (m_group m = str "prost::" /\ word_at (rev pre) = false)).
Proof.
  intros H. unfold find_fake_paths in H.
  destruct (finditer_sound _ _ _ H) as (pre & post & Ht & Hs & _ & Hm).
  destruct (match_here_sound _ _ _ _ _ Hm) as (x & Hx & _ & D).
  apply app_inv_tail in Hx. subst x.
  exists pre, post. split; [exact Ht|]. split; [exact Hs|].
  apply rule2_forms with (a := post). exact D.
Qed.

(** X10 on "see src/main.rs:42". *)
Lemma rule2_match_form_witness :
  exists pre post,
    str "see src/main.rs:42" = pre ++ str "src/main.rs:42" ++ post
    /\ 4 = length pre
    /\ ((exists p ds, str "src/main.rs:42" = p ++ str ".rs:" ++ ds
           /\ p <> [] /\ forallb path_char p = true
           /\ ds <> [] /\ forallb Chars.is_decimal ds = true)
        \/ (exists id, str "src/main.rs:42" = id ++ str "()"
              /\ id <> [] /\ forallb ident_char id = true)
        \/ (str "src/main.rs:42" = str "prost::" /\ word_at (rev pre) = false)).
Proof.
  apply (rule2_match_form (str "see src/main.rs:42") (mkMatch 4 18 (str "src/main.rs:42"))).
  vm_compute. left. reflexivity.
Defined.

(** ** An opening bracket that is never closed *)

Lemma digit_not_open c : Chars.is_decimal c = true -> Ascii.eqb c "[" = false.
Proof. by_cases_on_char c. Qed.

Lemma scan_step_none r b c a :
  match_here r b (c :: a) = None ->
  scan r 0 b (c :: a) = scan r 0 (c :: b) a.
Proof.
  intros H. simpl. rewrite H. reflexivity.
Qed.

(** X11.  The look-behind guards one character only.  When an opening
    bracket stands right before a number of two digits or more and no closing
    bracket comes first in what follows the phrase, Rule 1 reports the phrase
    all the same, without the first digit of the number. *)
Theorem open_bracket_hides_one_digit (pre : text) (c : ascii) (d s u post : text) :
  no_digit pre = true ->
  Chars.is_decimal c = true ->
  number_run d = true ->
  opt_space s = true ->
  unit_here u post ->
  ~ closed_before_open post ->
  exists rest,
    find_suspect_numbers (pre ++ "["%char :: c :: d ++ s ++ u ++ post)
    = mkMatch (length pre + 2) (length pre + 2 + length (d ++ s ++ u)) (d ++ s ++ u)
        :: rest.
Proof.
  intros Hpre Hc Hd Hs Hu Hpost.
  assert (Hcl : closes post = false).
  { destruct (closes post) eqn:E; [|reflexivity].
    exfalso. apply Hpost, closes_iff. exact E. }
  unfold find_suspect_numbers, finditer.
  replace (pre ++ "["%char :: c :: d ++ s ++ u ++ post)
    with ((pre ++ ["["%char]) ++ c :: d ++ s ++ u ++ post)
    by (rewrite <- app_assoc; reflexivity).
  rewrite scan_rule1_no_digit
    by (unfold no_digit in *; rewrite forallb_app, Hpre; reflexivity).
  rewrite app_nil_r, rev_app_distr. cbn [rev app].
  rewrite scan_step_none by reflexivity.
  assert (Hb : not_after_open (c :: "["%char :: rev pre))
    by (simpl; apply digit_not_open; exact Hc).
  pose proof (rule1_match_here _ d s u post Hb Hd Hs Hu Hcl) as Hm.
  destruct d as [|c0 ds]; [discriminate|].
  replace ((c0 :: ds) ++ s ++ u ++ post) with (c0 :: (ds ++ s ++ u) ++ post) in *
    by (simpl; rewrite <- !app_assoc; reflexivity).
  change ((c0 :: ds) ++ s ++ u) with (c0 :: (ds ++ s ++ u)) in *.
  rewrite (scan_found _ _ _ _ _ Hm).
  eexists. f_equal. f_equal; simpl; rewrite length_rev; lia.
Qed.

(** X11 on "[1500 bytes": the match is "500 bytes". *)
Lemma open_bracket_hides_one_digit_witness :
  exists rest,
    find_suspect_numbers ([] ++ "["%char :: "1"%char :: str "500" ++ str " " ++ str "bytes" ++ [])
    = mkMatch (0 + 2) (0 + 2 + length (str "500" ++ str " " ++ str "bytes"))
              (str "500" ++ str " " ++ str "bytes")
        :: rest.
Proof.
  apply (open_bracket_hides_one_digit [] "1"%char (str "500") (str " ") (str "bytes") []).
  - reflexivity.
  - reflexivity.
  - reflexivity.
  - reflexivity.
  - apply unit_plain. simpl. tauto.
  - intros H. apply closes_iff in H. discriminate H.
Defined.

(** ** A number followed by something that is no unit *)

Lemma unit_letter_not_number c : unit_letter c = true -> digit_or_comma c = false.
Proof. by_cases_on_char c. Qed.

Lemma space_not_unit_letter c : Chars.is_space c = true -> unit_letter c = false.
Proof. by_cases_on_char c. Qed.

Lemma unit_starts_with_letter u :
  u = str "row" \/ line_phrase u \/ In u quantity_units ->
  exists c u', u = c :: u' /\ unit_letter c = true.
Proof.
  intros [->|[(ws & ds & -> & _)|H]].
  - eexists _, _. split; reflexivity.
  - eexists _, _. split; reflexivity.
  - simpl in H.
    repeat (destruct H as [<-|H]; [eexists _, _; split; reflexivity|]).
    contradiction.
Qed.

(** Two runs of characters of one kind that stop where they stop are the
    same run. *)
Lemma run_unique (p : ascii -> bool) x1 : forall x2 r1 r2,
  forallb p x1 = true -> forallb p x2 = true ->
  stops p r1 -> stops p r2 ->
  x1 ++ r1 = x2 ++ r2 -> x1 = x2 /\ r1 = r2.
Proof.
  induction x1 as [|c x1 IH]; intros x2 r1 r2 H1 H2 S1 S2 E.
  - destruct x2 as [|d x2]; [auto|].
    simpl in *. subst r1. simpl in S1.
    apply andb_true_iff in H2. destruct H2 as [Hd _]. congruence.
  - destruct x2 as [|d x2].
    + simpl in *. subst r2. simpl in S2.
      apply andb_true_iff in H1. destruct H1 as [Hc _]. congruence.
    + simpl in *. inversion E; subst d.
      apply andb_true_iff in H1. apply andb_true_iff in H2.
      destruct (IH x2 r1 r2) as [-> ->]; tauto.
Qed.

(** At a run of digits and commas that no unit follows, Rule 1 has no
    match. *)
Lemma rule1_no_unit_here b d s w :
  forallb digit_or_comma d = true ->
  opt_space s = true ->
  stops (could_continue s) w ->
  match_here suspect_numbers_pattern b (d ++ s ++ w) = None.
Proof.
  intros Hd Hs Hw.
  destruct (match_here suspect_numbers_pattern b (d ++ s ++ w)) as [[b' a']|] eqn:E;
    [exfalso|reflexivity].
  rewrite rule1_rows_dead in E.
  destruct (match_here_sound _ _ _ _ _ E) as (x & Hx & _ & D).
  apply rule1_parts in D. destruct D as (d' & s' & u' & -> & Hd' & Hs' & Hu').
  apply number_run_run in Hd'.
  destruct (unit_starts_with_letter _ Hu') as (c & u1 & -> & Hc).
  rewrite <- !app_assoc in Hx.
  assert (S1 : stops digit_or_comma (s ++ w)).
  { destruct s as [|c0 [|? ?]]; try discriminate.
    - destruct w as [|e w]; [exact I|]. simpl in Hw |- *.
      unfold could_continue in Hw. apply orb_false_iff in Hw. destruct Hw as [Hw _].
      apply orb_false_iff in Hw. tauto.
    - simpl in Hs |- *. apply space_not_digit_or_comma. exact Hs. }
  assert (S2 : stops digit_or_comma (s' ++ (c :: u1) ++ a')).
  { destruct s' as [|c0 [|? ?]]; try discriminate.
    - simpl. apply unit_letter_not_number. exact Hc.
    - simpl in Hs' |- *. apply space_not_digit_or_comma. exact Hs'. }
  destruct (run_unique _ _ _ _ _ Hd Hd' S1 S2 Hx) as [_ Hrest].
  destruct s as [|c0 [|? ?]]; try discriminate;
    destruct s' as [|c1 [|? ?]]; try discriminate;
    simpl in Hrest, Hs, Hs'.
  - subst w. simpl in Hw. unfold could_continue in Hw.
    rewrite Hc in Hw. rewrite orb_true_r in Hw. discriminate.
  - subst w. simpl in Hw. unfold could_continue in Hw.
    rewrite Hs' in Hw. rewrite orb_true_r in Hw. discriminate.
  - inversion Hrest; subst c0.
    rewrite (space_not_unit_letter _ Hs) in Hc. discriminate.
  - inversion Hrest; subst.
    simpl in Hw. unfold could_continue in Hw.
    rewrite Hc in Hw. rewrite orb_true_r in Hw. discriminate.
Qed.

Lemma digit_not_space_rev c : Chars.is_space c = true -> negb (Chars.is_decimal c) = true.
Proof. by_cases_on_char c. Qed.

Lemma spaces_no_digit s : opt_space s = true -> no_digit s = true.
Proof.
  destruct s as [|c [|? ?]]; try discriminate; [reflexivity|].
  simpl. intros H. rewrite (digit_not_space_rev c H). reflexivity.
Qed.

Lemma scan_rule1_no_unit d : forall b s w,
  forallb digit_or_comma d = true ->
  opt_space s = true ->
  no_digit w = true ->
  stops (could_continue s) w ->
  scan suspect_numbers_pattern 0 b (d ++ s ++ w) = [].
Proof.
  induction d as [|c d IH]; intros b s w Hd Hs Hnd Hw.
  - simpl app. rewrite <- (app_nil_r (s ++ w)).
    rewrite scan_rule1_no_digit
      by (unfold no_digit in *; rewrite forallb_app;
          fold (no_digit s); rewrite (spaces_no_digit _ Hs), Hnd; reflexivity).
    simpl. rewrite rule1_needs_digit by exact I. reflexivity.
  - change ((c :: d) ++ s ++ w) with (c :: d ++ s ++ w).
    rewrite scan_step_none.
    + simpl in Hd. apply andb_true_iff in Hd. apply IH; tauto.
    + apply (rule1_no_unit_here b (c :: d) s w); assumption.
Qed.

(** X12.  A run of digits and commas, at most one white-space character and
    then a text without digits that does not begin like a unit word: when no
    digit comes before, Rule 1 reports nothing at all ("42 widgets"). *)
Theorem unsupported_unit_not_flagged (pre d s w : text) :
  no_digit pre = true ->
  forallb digit_or_comma d = true ->
  opt_space s = true ->
  no_digit w = true ->
  stops (could_continue s) w ->
  find_suspect_numbers (pre ++ d ++ s ++ w) = [].
Proof.
  intros Hpre Hd Hs Hnd Hw. unfold find_suspect_numbers, finditer.
  rewrite scan_rule1_no_digit by exact Hpre.
  apply scan_rule1_no_unit; assumption.
Qed.

(** X12 on "It has 42 widgets". *)
Lemma unsupported_unit_not_flagged_witness :
  find_suspect_numbers (str "It has " ++ str "42" ++ str " " ++ str "widgets") = [].
Proof.
  apply (unsupported_unit_not_flagged (str "It has ") (str "42") (str " ") (str "widgets"));
    reflexivity.
Defined.


(** ** Which cells the console library can reject *)

Lemma plain_not_open c : is_plain c = true -> negb (Ascii.eqb c "[") = true.
Proof. by_cases_on_char c. Qed.

Lemma path_char_not_open c : path_char c = true -> negb (Ascii.eqb c "[") = true.
Proof. by_cases_on_char c. Qed.

Lemma ident_char_not_open c : ident_char c = true -> negb (Ascii.eqb c "[") = true.
Proof. by_cases_on_char c. Qed.

Lemma digit_lacks_open c : Chars.is_decimal c = true -> negb (Ascii.eqb c "[") = true.
Proof. by_cases_on_char c. Qed.

Lemma type_of_lacks_open m : lacks "[" (type_of m) = true.
Proof.
  unfold type_of. destruct (_ || _); reflexivity.
Qed.

(** No match holds an opening bracket. *)
Lemma group_lacks_open t m : In m (issues_of t) -> lacks "[" (m_group m) = true.
Proof.
  unfold issues_of. rewrite in_app_iff. intros [H|H].
  - destruct (rule1_group_plain _ _ H) as [_ Hp].
    eapply forallb_impl; [apply plain_not_open|exact Hp].
  - unfold find_fake_paths in H.
    destruct (finditer_sound _ _ _ H) as (pre & post & _ & _ & _ & Hm).
    destruct (match_here_sound _ _ _ _ _ Hm) as (x & Hx & _ & D).
    apply app_inv_tail in Hx. subst x. apply rule2_forms in D.
    destruct D as [(p & ds & -> & _ & Hp & _ & Hds)|[(id & -> & _ & Hi)|[-> _]]];
      unfold lacks; rewrite ?forallb_app.
    + rewrite (forallb_impl _ _ _ path_char_not_open Hp).
      rewrite (forallb_impl _ _ _ digit_lacks_open Hds). reflexivity.
    + rewrite (forallb_impl _ _ _ ident_char_not_open Hi). reflexivity.
    + reflexivity.
Qed.

(** X13.  Of all the strings in the table, only a context cell can make the
    console library raise: the title, the headers, the type cells and the
    matched texts hold no "[", so the table print fails exactly when the
    library rejects the context cell of some match. *)
Theorem only_context_cells_fail (rich : markup) (t : text) :
  table_raises rich (findings_table t)
  = existsb (fun m => cell_raises rich (r_context (row_of t m))) (issues_of t).
Proof.
  unfold findings_table. rewrite table_frame_never_raises.
  assert (H : forall l, (forall m, In m l -> In m (issues_of t)) ->
            existsb (row_raises rich) (map (row_of t) l)
            = existsb (fun m => cell_raises rich (r_context (row_of t m))) l).
  { induction l as [|m l IH]; intros Hl; [reflexivity|].
    cbn [map existsb]. rewrite IH by (intros m' Hm'; apply Hl; right; exact Hm').
    f_equal. unfold row_raises. cbn [row_of r_type r_match r_context].
    rewrite (no_open_never_raises rich _ (type_of_lacks_open m)).
    rewrite (no_open_never_raises rich _ (group_lacks_open t m (Hl m (or_introl eq_refl)))).
    reflexivity. }
  apply H. auto.
Qed.

(** ** A text without an opening bracket *)

Lemma in_skipn (n : nat) (c : ascii) (l : text) : In c (skipn n l) -> In c l.
Proof.
  intros H. rewrite <- (firstn_skipn n l). apply in_or_app. right. exact H.
Qed.

Lemma context_lacks_open t m :
  lacks "[" t = true -> lacks "[" (r_context (row_of t m)) = true.
Proof.
  intros Ht. unfold lacks in *. rewrite forallb_forall in *.
  intros c Hc. cbn [row_of r_context] in Hc. apply in_app_or in Hc.
  destruct Hc as [Hc|Hc].
  - apply in_firstn, in_strip in Hc. rewrite context_window in Hc.
    unfold replace_newlines in Hc. apply in_map_iff in Hc.
    destruct Hc as (e & He & Hin).
    destruct (Ascii.eqb e "010") eqn:E.
    + subst c. reflexivity.
    + subst c. apply Ht. unfold window in Hin.
      apply in_firstn, in_skipn in Hin. exact Hin.
  - simpl in Hc. repeat (destruct Hc as [<-|Hc]; [reflexivity|]). contradiction.
Qed.

Lemma excerpt_lacks_open t m :
  lacks "[" t = true -> In m (issues_of t) -> lacks "[" (m_group m) = true.
Proof.
  intros Ht H. destruct (match_located _ _ H) as (pre & post & E & _).
  rewrite E in Ht. unfold lacks in *. rewrite !forallb_app in Ht.
  apply andb_true_iff in Ht. destruct Ht as [_ Ht].
  apply andb_true_iff in Ht. tauto.
Qed.

(** X14.  A file whose text holds no "[" is always reported: whatever markup
    the console library rejects, the run prints its report, the clean message
    or the table and the summary line, and the exit code is 0. *)
Theorem text_without_bracket_prints
    (rich : markup) (fs : filesystem) (prog path : string) (t : text) :
  fs path = inr t ->
  lacks "[" t = true ->
  script rich fs [prog; path] = mkRun (report t) Returned
  /\ exit_code (script rich fs [prog; path]) = 0%Z.
Proof.
  intros Hfs Ht.
  assert (Hok : table_raises rich (findings_table t) = false).
  { unfold findings_table. rewrite table_frame_never_raises.
    assert (H : forall l, (forall m, In m l -> In m (issues_of t)) ->
              existsb (row_raises rich) (map (row_of t) l) = false).
    { induction l as [|m l IH]; intros Hl; [reflexivity|].
      cbn [map existsb]. rewrite IH by (intros m' Hm'; apply Hl; right; exact Hm').
      unfold row_raises.
      change (r_type (row_of t m)) with (type_of m).
      change (r_match (row_of t m)) with (m_group m).
      rewrite (no_open_never_raises rich _ (type_of_lacks_open m)).
      rewrite (no_open_never_raises rich (m_group m))
        by (apply (excerpt_lacks_open t); [exact Ht|apply Hl; left; reflexivity]).
      rewrite (no_open_never_raises rich _ (context_lacks_open t m Ht)).
      reflexivity. }
    apply H. auto. }
  assert (Hrun : script rich fs [prog; path] = mkRun (report t) Returned).
  { unfold script, main, load_file. simpl negb. cbn [nth]. rewrite Hfs.
    destruct (run_after_load rich t) as [(_ & ->)|[(_ & _ & ->)|(_ & Hr & _)]];
      [reflexivity|reflexivity|congruence]. }
  rewrite Hrun. split; reflexivity.
Qed.

(** X14 on "took 10 seconds here", with a console library that rejects every
    string with a "[". *)
Lemma text_without_bracket_prints_witness :
  script (fun _ => true) (fun _ => inr (str "took 10 seconds here"))
    ["audit.py"; "notes.md"]%string
  = mkRun (report (str "took 10 seconds here")) Returned
  /\ exit_code (script (fun _ => true) (fun _ => inr (str "took 10 seconds here"))
                  ["audit.py"; "notes.md"]%string) = 0%Z.
Proof.
  apply (text_without_bracket_prints (fun _ => true)
           (fun _ => inr (str "took 10 seconds here")) "audit.py" "notes.md"
           (str "took 10 seconds here")); reflexivity.
Defined.
